(** * ThemeEngine: the CSS theme orchestrator of typhonjs-theme-engine

    A shallow embedding of [src/ThemeEngine.js].  The class is glue between
    three collaborators it does not own: the PostCSS engine ([this._postcss]),
    the plugin event bus ([this._eventbus]) and the [es6-template] renderer.
    Every operation is modelled as the ordered list of calls it issues on the
    engine and on the bus, together with the way it ends (a thrown error or a
    returned value).  An [async] method never throws at its caller: an error
    raised in its body is the rejection of the promise it returns, and the
    code up to the first [await] runs before the call returns.  The model
    keeps the two apart where it matters, with a [_start] function for the
    part before the [await] and a [_resume] function for the part after. *)

From Stdlib Require Import List String Ascii ZArith Bool DecimalString Permutation.
Import ListNotations.
Local Open Scope string_scope.
Local Open Scope list_scope.
Set Warnings "-register-all".

(** ** JavaScript values *)

(** The values the orchestrator receives and forwards.  Numbers are inspected
    by the code through [typeof] and truthiness only, so an integer payload is
    enough.  An object is its own properties in insertion order; a key is
    bound at most once and a read returns the first binding.  [JPlugin] is a
    function value the orchestrator stores or forwards and never calls: a
    plugin of one of the imported PostCSS packages with the options it was
    built with, or a built-in method, named by where it comes from. *)
Inductive JSValue : Type :=
| JUndefined
| JNull
| JBool (b : bool)
| JNum (n : Z)
| JStr (s : string)
| JArr (items : list JSValue)
| JObj (props : list (string * JSValue))
| JPlugin (package : string) (options : option JSValue).

(** [typeof v] *)
Definition typeof (v : JSValue) : string :=
  match v with
  | JUndefined => "undefined"
  | JNull => "object"
  | JBool _ => "boolean"
  | JNum _ => "number"
  | JStr _ => "string"
  | JArr _ => "object"
  | JObj _ => "object"
  | JPlugin _ _ => "function"
  end.

(** [typeof v === 'undefined'] *)
Definition is_undefined (v : JSValue) : bool :=
  match v with JUndefined => true | _ => false end.

(** [v === 'literal'] *)
Definition is_str (v : JSValue) (s : string) : bool :=
  match v with JStr s' => String.eqb s' s | _ => false end.

(** [Array.isArray(v)] *)
Definition isArray (v : JSValue) : bool :=
  match v with JArr _ => true | _ => false end.

(** The entries a [for (const entry of v)] loop visits when [v] is an array. *)
Definition elements (v : JSValue) : list JSValue :=
  match v with JArr l => l | _ => [] end.

(** Truthiness, as tested by [!x] and [a && b]. *)
Definition to_boolean (v : JSValue) : bool :=
  match v with
  | JUndefined | JNull => false
  | JBool b => b
  | JNum n => negb (Z.eqb n 0)
  | JStr s => negb (String.eqb s "")
  | JArr _ | JObj _ | JPlugin _ _ => true
  end.

Fixpoint assoc (k : string) (kvs : list (string * JSValue)) : JSValue :=
  match kvs with
  | [] => JUndefined
  | (k', v) :: rest => if String.eqb k k' then v else assoc k rest
  end.

Definition index_key (n : nat) : string :=
  NilZero.string_of_uint (Nat.to_uint n).

Definition indexed (l : list JSValue) : list (string * JSValue) :=
  combine (map index_key (seq 0 (List.length l))) l.

Fixpoint chars (s : string) : list JSValue :=
  match s with
  | EmptyString => []
  | String c s' => JStr (String c EmptyString) :: chars s'
  end.

(** Own enumerable properties, the ones a rest pattern [...templateData]
    collects. *)
Definition own_props (v : JSValue) : list (string * JSValue) :=
  match v with
  | JObj kvs => kvs
  | JArr l => indexed l
  | JStr s => indexed (chars s)
  | _ => []
  end.

(** [Array.prototype.map], which every array inherits. *)
Definition array_map : JSValue := JPlugin "Array.prototype.map" None.

(** A property read [v.k] on a value that is neither [null] nor [undefined]
    (those two throw, see [get] below): an own property, or an inherited
    one.  The names the orchestrator reads are [files], [map], [processors],
    [silent], [debug], [name], [dirName], [filePath], [append], [prepend],
    [copy] and [length]; the only one of them found on a prototype is [map],
    on arrays.  The own [name] and [length] of a function are not modelled:
    a function passed as a fragment request has no [filePath], and the call
    fails on rendering it before its name is used. *)
Definition prop (v : JSValue) (k : string) : JSValue :=
  match v with
  | JArr l =>
      if String.eqb k "length" then JNum (Z.of_nat (List.length l))
      else if String.eqb k "map" then array_map
      else assoc k (indexed l)
  | JStr s =>
      if String.eqb k "length" then JNum (Z.of_nat (String.length s))
      else assoc k (indexed (chars s))
  | _ => assoc k (own_props v)
  end.

(** A default initialiser [x = d]: it applies to [undefined] only. *)
Definition default (v d : JSValue) : JSValue :=
  match v with JUndefined => d | _ => v end.

(** ** Calls and outcomes *)

(** What the orchestrator does to the outside world.  The engine and the bus
    are recorders here: a call is logged with its argument and returns
    normally.  A collaborator that throws from inside one of these calls is
    outside this model. *)
Inductive Event : Type :=
| PostcssCreate (target : JSValue)
| PostcssAppend (fragment : JSValue)
| PostcssPrepend (fragment : JSValue)
| PostcssFinalizeAll (options : JSValue)
| TriggerAsync (name : string) (args : list JSValue)
| Trigger (name : string) (args : list JSValue).

Inductive Exn : Type :=
| TypeError (msg : string)
| Error (msg : string).

(** A run of synchronous code: the calls issued, in order, and then either
    the exception thrown or the value produced. *)
Definition M (A : Type) : Type := (list Event * (Exn + A))%type.

Definition ret {A} (a : A) : M A := ([], inr a).
Definition throw {A} (e : Exn) : M A := ([], inl e).
Definition emit (e : Event) : M unit := ([e], inr tt).

Definition bind {A B} (m : M A) (f : A -> M B) : M B :=
  match m with
  | (t, inl e) => (t, inl e)
  | (t, inr a) => (t ++ fst (f a), snd (f a))
  end.

Declare Scope js_scope.
Delimit Scope js_scope with js.
Notation "x <- c ;; k" := (bind c (fun x => k))
  (at level 100, c at next level, right associativity) : js_scope.
Notation "c ;; k" := (bind c (fun _ => k))
  (at level 100, right associativity) : js_scope.
Local Open Scope js_scope.

(** [if (c) { throw e; }] *)
Definition throw_if (c : bool) (e : Exn) : M unit :=
  if c then throw e else ret tt.

(** [for (const x of l) { body }] over the entries of an array. *)
Fixpoint for_of {A} (l : list A) (body : A -> M unit) : M unit :=
  match l with
  | [] => ret tt
  | x :: l' => body x ;; for_of l' body
  end.

(** Binding an object pattern [{ ... }] against [v] throws on [null] and
    [undefined]; so does a property read. *)
Definition coercible (v : JSValue) : M unit :=
  match v with
  | JUndefined | JNull => throw (TypeError "Cannot destructure 'undefined' or 'null'.")
  | _ => ret tt
  end.

Definition get (v : JSValue) (k : string) : M JSValue :=
  match v with
  | JUndefined | JNull => throw (TypeError "Cannot read properties of undefined or null.")
  | _ => ret (prop v k)
  end.

Definition events {A} (m : M A) : list Event := fst m.
Definition outcome {A} (m : M A) : Exn + A := snd m.

(** The calls that reach the engine, as opposed to the bus. *)
Definition is_engine_call (e : Event) : bool :=
  match e with
  | PostcssCreate _ | PostcssAppend _ | PostcssPrepend _ | PostcssFinalizeAll _ => true
  | TriggerAsync _ _ | Trigger _ _ => false
  end.

Definition engine_calls (t : list Event) : list Event := filter is_engine_call t.

(** ** createTheme *)

Definition cssnext (options : JSValue) : JSValue := JPlugin "postcss-cssnext" (Some options).
Definition combineDup : JSValue := JPlugin "postcss-combine-duplicated-selectors" None.
Definition cssnano (options : JSValue) : JSValue := JPlugin "cssnano" (Some options).

(** Lines 63-72: the pipeline built when no processors are supplied. *)
Definition default_processors (map debug : JSValue) : JSValue :=
  let cssnextOptions :=
    match map with
    | JBool true => JObj [("sourceMap", JStr "inline")]
    | _ => JObj []
    end in
  let cssnanoOptions := JObj [("autoprefixer", JBool false)] in
  let processors := [JObj [("instance", cssnext cssnextOptions)]] in
  if negb (to_boolean debug)
  then JArr (processors ++ [JObj [("instance", combineDup)]]
                        ++ [JObj [("instance", cssnano cssnanoOptions)]])
  else JArr processors.

(** The argument of [this._postcss.create]. *)
Definition create_target (entry map processors silent : JSValue) : JSValue :=
  JObj [("name", entry); ("to", entry); ("map", map);
        ("processors", processors); ("silent", silent)].

Definition files_error : Exn := TypeError "'files' is not a 'string' or 'array'.".
Definition processors_error : Exn := TypeError "'processors' is not an 'array'.".

(** The body of [createTheme], lines 55-87, on the bound parameters. *)
Definition createTheme_body (files map processors silent debug : JSValue) : M unit :=
  throw_if (negb (isArray files) && negb (String.eqb (typeof files) "string"))
           files_error ;;
  let processors :=
    match processors with
    | JUndefined | JNull => default_processors map debug
    | _ => processors
    end in
  throw_if (negb (isArray processors)) processors_error ;;
  if String.eqb (typeof files) "string"
  then emit (PostcssCreate (create_target files map processors silent))
  else if isArray files
  then for_of (elements files)
         (fun entry => emit (PostcssCreate (create_target entry map processors silent)))
  else ret tt.

(** [async createTheme({ files = 'styles.css', map = true,
    processors = void 0, silent = false, debug = false } = {})] *)
Definition createTheme (options : JSValue) : M unit :=
  let options := default options (JObj []) in
  coercible options ;;
  createTheme_body
    (default (prop options "files") (JStr "styles.css"))
    (default (prop options "map") (JBool true))
    (default (prop options "processors") JUndefined)
    (default (prop options "silent") (JBool false))
    (default (prop options "debug") (JBool false)).

(** ** Sample collaborators and the shape of templates *)

(** A bus whose every round-trip resolves to the same value. *)
Definition reply_with (r : JSValue) : string -> list JSValue -> JSValue :=
  fun _ _ => r.

(** A placeholder policy that writes the value bound to the key when it is a
    string, and nothing otherwise. *)
Definition string_binding (data : list (string * JSValue)) (key : string) : string :=
  match assoc key data with JStr s => s | _ => "" end.

(** An engine whose [finalizeAll] produces no stylesheet. *)
Definition no_css : JSValue -> JSValue := fun _ => JArr [].

Fixpoint has_close (s : string) : bool :=
  match s with
  | EmptyString => false
  | String c s' => Ascii.eqb c "}" || has_close s'
  end.

(** Modelled from the spec: what the specification calls a template
    placeholder in a file path, for the third-party renderer that is not part
    of the sources.  A placeholder is an opening [${] that is closed by a
    later [}]. *)
Fixpoint has_placeholder (s : string) : bool :=
  match s with
  | EmptyString => false
  | String c s' =>
      match s' with
      | String c' rest =>
          if Ascii.eqb c "$" && Ascii.eqb c' "{" then has_close rest
          else has_placeholder s'
      | EmptyString => false
      end
  end.

Section Orchestrator.

(** What a placeholder is replaced by, given the substitution variables and
    the text between its braces.  The renderer is a third-party package; how
    it prints a bound value and what it does with an unbound key are left
    open. *)
Variable placeholder_value : list (string * JSValue) -> string -> string.

(** The value an awaited [this._eventbus.triggerAsync(name, ...args)]
    resolves to. *)
Variable triggerAsync : string -> list JSValue -> JSValue.

(** The value an awaited [this._postcss.finalizeAll(options)] resolves to. *)
Variable finalizeAll : JSValue -> JSValue.

(** Modelled from the spec: the template-substitution function
    [render(template, data) -> string] (the [es6-template] package imported
    on line 1, which is not part of the sources).  It copies the template and
    resolves each placeholder against the substitution variables; the
    placeholder syntax is the ES6 one, [${key}].  [key] is [None] while
    copying text and [Some k] while reading the key [k] of a placeholder; an
    opening that is never closed is text. *)
Fixpoint render_from (data : list (string * JSValue)) (key : option string)
  (s : string) : string :=
  match key, s with
  | None, EmptyString => EmptyString
  | None, String c s' =>
      match s' with
      | String c' rest =>
          if Ascii.eqb c "$" && Ascii.eqb c' "{"
          then render_from data (Some EmptyString) rest
          else String c (render_from data None s')
      | EmptyString => String c EmptyString
      end
  | Some k, EmptyString => ("${" ++ k)%string
  | Some k, String c s' =>
      if Ascii.eqb c "}"
      then (placeholder_value data k ++ render_from data None s')%string
      else render_from data (Some (k ++ String c EmptyString)%string) s'
  end.

(** Modelled from the spec: [es6Template(template, data)], the entry point of
    the renderer.  Its interface takes a string template; any other template
    is refused with a [TypeError].  A missing [data] brings no substitution
    variables. *)
Definition es6Template (template data : JSValue) : M JSValue :=
  match template with
  | JStr s => ret (JStr (render_from (own_props data) None s))
  | _ => throw (TypeError "es6-template expects a string.")
  end.

(** ** cssAdd *)

Definition action_type_error : Exn := TypeError "'action' is not a 'string'.".
Definition action_value_error : Exn := Error "'action' is not 'append' or 'prepend'.".

(** [action === 'append' ? this._postcss.append(x) : this._postcss.prepend(x)] *)
Definition engine_add (action fragment : JSValue) : M unit :=
  if is_str action "append" then emit (PostcssAppend fragment)
  else emit (PostcssPrepend fragment).

(** The parameters bound by the pattern [{ name = 'styles.css',
    dirName = void 0, filePath = void 0, silent = false, ...templateData }]. *)
Definition data_name (data : JSValue) : JSValue := default (prop data "name") (JStr "styles.css").
Definition data_dirName (data : JSValue) : JSValue := default (prop data "dirName") JUndefined.
Definition data_filePath (data : JSValue) : JSValue := default (prop data "filePath") JUndefined.
Definition data_silent (data : JSValue) : JSValue := default (prop data "silent") (JBool false).

Definition is_named_key (k : string) : bool :=
  String.eqb k "name" || String.eqb k "dirName" || String.eqb k "filePath" || String.eqb k "silent".

Definition data_templateData (data : JSValue) : JSValue :=
  JObj (filter (fun kv => negb (is_named_key (fst kv))) (own_props data)).

(** The fragment descriptor handed to the engine on lines 115-116. *)
Definition fragment (name dirName filePath silent : JSValue) : JSValue :=
  JObj [("name", name); ("dirName", dirName); ("filePath", filePath); ("silent", silent)].

(** The payload of the content round-trip on lines 118-119. *)
Definition css_request (name filePath silent : JSValue) : JSValue :=
  JObj [("name", name); ("filePath", filePath); ("silent", silent)].

(** A [cssAdd] call suspended at its [await]: what the rest of the body still
    reads. *)
Record Pending : Type := {
  pending_action : JSValue;
  pending_silent : JSValue;
  pending_request : JSValue
}.

(** [cssAdd] from its call to the [await] on line 118: parameter binding,
    lines 109-116 and the [triggerAsync] call itself.  All of it runs before
    the call returns its promise. *)
Definition cssAdd_start (action data : JSValue) : M Pending :=
  let action := default action (JStr "append") in
  let data := default data (JObj []) in
  coercible data ;;
  let name := data_name data in
  let dirName := data_dirName data in
  let filePath := data_filePath data in
  let silent := data_silent data in
  let templateData := data_templateData data in
  throw_if (negb (String.eqb (typeof action) "string")) action_type_error ;;
  throw_if (negb (is_str action "append") && negb (is_str action "prepend"))
           action_value_error ;;
  structuralFilePath <- es6Template filePath JUndefined ;;
  themeFilePath <- es6Template filePath templateData ;;
  engine_add action (fragment name dirName structuralFilePath silent) ;;
  emit (TriggerAsync "typhonjs:theme:css:get" [css_request name themeFilePath silent]) ;;
  ret {| pending_action := action;
         pending_silent := silent;
         pending_request := css_request name themeFilePath silent |}.

Definition not_array_message (themeCSSType : string) : string :=
  ("typhonjs-theme-engine - cssAdd error: 'themeCSS' is not an 'array'; found: '"
     ++ themeCSSType ++ ".")%string.

(** [cssAdd] after the [await]: lines 121-151 on the reply [themeCSS]. *)
Definition cssAdd_resume (p : Pending) (themeCSS : JSValue) : M unit :=
  let action := pending_action p in
  if isArray themeCSS
  then
    for_of (elements themeCSS) (fun entry =>
      if isArray entry
      then for_of (elements entry) (fun entry2 => engine_add action entry2)
      else engine_add action entry)
  else
    let themeCSSType := typeof themeCSS in
    if negb (String.eqb themeCSSType "undefined")
    then
      if negb (to_boolean (pending_silent p))
      then emit (Trigger "log:error" [JStr (not_array_message themeCSSType)])
      else ret tt
    else ret tt.

(** A whole [cssAdd] call, run to completion. *)
Definition cssAdd (action data : JSValue) : M unit :=
  p <- cssAdd_start action data ;;
  cssAdd_resume p (triggerAsync "typhonjs:theme:css:get" [pending_request p]).

(** [async cssAppend(data = {})] and [async cssPrepend(data = {})] *)
Definition cssAppend (data : JSValue) : M unit :=
  cssAdd (JStr "append") (default data (JObj [])).

Definition cssPrepend (data : JSValue) : M unit :=
  cssAdd (JStr "prepend") (default data (JObj [])).

(** ** cssAppendAll and cssPrependAll *)

(** The entries a [for ... of] loop visits: those of an array, the characters
    of a string; anything else is not iterable. *)
Definition iterate (v : JSValue) : M (list JSValue) :=
  match v with
  | JArr l => ret l
  | JStr s => ret (chars s)
  | _ => throw (TypeError "data is not iterable.")
  end.

(** The loop [for (const entry of data) { promises.push(this.cssAdd(action,
    entry)); }].  Each call runs up to its [await] and hands back its
    promise, rejected already ([inl]) or pending ([inr]); a call that throws
    does not stop the loop. *)
Fixpoint start_each (action : JSValue) (entries : list JSValue)
  : list Event * list (Exn + Pending) :=
  match entries with
  | [] => ([], [])
  | entry :: rest =>
      (events (cssAdd_start action entry) ++ fst (start_each action rest),
       outcome (cssAdd_start action entry) :: snd (start_each action rest))
  end.

(** The batch operation up to the moment [Promise.all(promises)] is called. *)
Definition cssAddAll_start (action data : JSValue) : M (list (Exn + Pending)) :=
  entries <- iterate (default data (JArr [])) ;;
  (fst (start_each action entries), inr (snd (start_each action entries))).

(** The pending calls resumed with their replies, in the order they were
    issued. *)
Fixpoint resume_each (promises : list (Exn + Pending))
  : list Event * list (Exn + unit) :=
  match promises with
  | [] => ([], [])
  | inl e :: rest => (fst (resume_each rest), inl e :: snd (resume_each rest))
  | inr p :: rest =>
      let run := cssAdd_resume p (triggerAsync "typhonjs:theme:css:get" [pending_request p]) in
      (events run ++ fst (resume_each rest), outcome run :: snd (resume_each rest))
  end.

(** [Promise.all]: rejected with the first rejection, fulfilled with the
    array of results otherwise.  A [cssAdd] promise can only be rejected
    before its [await] here, so the first rejection in time is the first in
    the list. *)
Fixpoint promise_all (settled : list (Exn + unit)) : Exn + JSValue :=
  match settled with
  | [] => inr (JArr [])
  | inl e :: _ => inl e
  | inr _ :: rest =>
      match promise_all rest with
      | inl e => inl e
      | inr v => inr (JArr (JUndefined :: elements v))
      end
  end.

Definition cssAddAll (action data : JSValue) : M JSValue :=
  promises <- cssAddAll_start action data ;;
  (fst (resume_each promises), promise_all (snd (resume_each promises))).

(** [async cssAppendAll(data = [])] and [async cssPrependAll(data = [])] *)
Definition cssAppendAll (data : JSValue) : M JSValue := cssAddAll (JStr "append") data.
Definition cssPrependAll (data : JSValue) : M JSValue := cssAddAll (JStr "prepend") data.

(** ** finalizeTheme *)

(** [Array.isArray(x) && x.length] *)
Definition nonempty_array (x : JSValue) : bool :=
  isArray x && to_boolean (prop x "length").

(** One resource bundle: lines 240-259, repeated verbatim on lines 264-283.
    It returns [copyResources] after the push. *)
Definition add_resource (resource : JSValue) (copyResources : list JSValue)
  : M (list JSValue) :=
  append <- get resource "append" ;;
  (if nonempty_array append
   then for_of (elements append) (fun entry => emit (PostcssAppend entry))
   else ret tt) ;;
  prepend <- get resource "prepend" ;;
  (if nonempty_array prepend
   then for_of (elements prepend) (fun entry => emit (PostcssPrepend entry))
   else ret tt) ;;
  copy <- get resource "copy" ;;
  if nonempty_array copy
  then ret (copyResources ++ elements copy)
  else ret copyResources.

(** [for (const resource of themeResources) { ... }] *)
Fixpoint add_resources (resources : list JSValue) (copyResources : list JSValue)
  : M (list JSValue) :=
  match resources with
  | [] => ret copyResources
  | resource :: rest =>
      copyResources' <- add_resource resource copyResources ;;
      add_resources rest copyResources'
  end.

Definition finalize_options (silent : JSValue) : JSValue := JObj [("silent", silent)].

(** [finalizeTheme] after its first [await]: lines 233-288 on the reply
    [themeResources]. *)
Definition finalizeTheme_resume (silent themeResources : JSValue) : M JSValue :=
  copyResources <-
    (if isArray themeResources
     then add_resources (elements themeResources) []
     else if String.eqb (typeof themeResources) "object"
     then add_resource themeResources []
     else ret []) ;;
  emit (PostcssFinalizeAll (finalize_options silent)) ;;
  let css := finalizeAll (finalize_options silent) in
  ret (JObj [("css", css); ("copy", JArr copyResources)]).

(** [async finalizeTheme({ silent = false } = {})] *)
Definition finalizeTheme (options : JSValue) : M JSValue :=
  let options := default options (JObj []) in
  coercible options ;;
  let silent := default (prop options "silent") (JBool false) in
  emit (TriggerAsync "typhonjs:theme:resources:get" []) ;;
  finalizeTheme_resume silent (triggerAsync "typhonjs:theme:resources:get" []).

(** ** Vocabulary of the statements *)

(** One entry of a processor list. *)
Definition stage (instance : JSValue) : JSValue := JObj [("instance", instance)].

(** The options [cssnext] is built with, line 63. *)
Definition cssnext_options (map : JSValue) : JSValue :=
  match map with
  | JBool true => JObj [("sourceMap", JStr "inline")]
  | _ => JObj []
  end.

Definition cssnano_options : JSValue := JObj [("autoprefixer", JBool false)].

(** The event is a [create] call whose target carries this processor list. *)
Definition created_with (pipeline : JSValue) (e : Event) : Prop :=
  exists target, e = PostcssCreate target /\ prop target "processors" = pipeline.

(** The target names a [files] argument stands for. *)
Definition targets (files : JSValue) : list JSValue :=
  match files with
  | JStr _ => [files]
  | JArr l => l
  | _ => []
  end.

(** The shape the specification asks of [files]: a string or a list of
    strings. *)
Definition string_or_string_list (v : JSValue) : bool :=
  match v with
  | JStr _ => true
  | JArr l => forallb (fun x => match x with JStr _ => true | _ => false end) l
  | _ => false
  end.

(** The engine call [cssAdd] makes for one fragment under [action]. *)
Definition add_call (action fragment : JSValue) : Event :=
  if is_str action "append" then PostcssAppend fragment else PostcssPrepend fragment.

(** The descriptor [cssAdd] registers for a fragment request: its file path
    rendered with no substitution variables. *)
Definition structural_fragment (data : JSValue) : JSValue :=
  let d := default data (JObj []) in
  fragment (data_name d) (data_dirName d)
    (match data_filePath d with
     | JStr path => JStr (render_from [] None path)
     | other => other
     end)
    (data_silent d).

(** The entries one element of a content reply stands for: its own entries
    when it is a list, itself otherwise. *)
Definition leaves (entry : JSValue) : list JSValue :=
  match entry with
  | JArr l => l
  | _ => [entry]
  end.

(** A reply flattened by exactly one level, as the specification words it. *)
Definition flatten_one_level (reply : list JSValue) : list JSValue :=
  flat_map leaves reply.

(** The list under a bundle field, empty when the field holds no list. *)
Definition bundle_list (bundle : JSValue) (field : string) : list JSValue :=
  elements (prop bundle field).

(** A bundle is a value whose fields can be read: anything but [null] and
    [undefined]. *)
Definition is_bundle (v : JSValue) : bool :=
  match v with JUndefined | JNull => false | _ => true end.

(** The engine calls one bundle gives rise to. *)
Definition bundle_calls (bundle : JSValue) : list Event :=
  List.map PostcssAppend (bundle_list bundle "append")
    ++ List.map PostcssPrepend (bundle_list bundle "prepend").

Definition is_append (e : Event) : bool :=
  match e with PostcssAppend _ => true | _ => false end.

Definition is_prepend (e : Event) : bool :=
  match e with PostcssPrepend _ => true | _ => false end.

Definition is_diagnostic (e : Event) : bool :=
  match e with Trigger name _ => String.eqb name "log:error" | _ => false end.

(** ** Sample inputs *)

(** A fragment request with a plain path, and what [cssAdd] does with it
    before its [await]. *)
Definition sample_request : JSValue :=
  JObj [("dirName", JStr "/theme"); ("filePath", JStr "css/main.css")].

Definition sample_fragment : JSValue :=
  fragment (JStr "styles.css") (JStr "/theme") (JStr "css/main.css") (JBool false).

Definition sample_pending (action : string) : Pending :=
  {| pending_action := JStr action;
     pending_silent := JBool false;
     pending_request :=
       css_request (JStr "styles.css") (JStr "css/main.css") (JBool false) |}.

Definition sample_lookup : Event :=
  TriggerAsync "typhonjs:theme:css:get"
    [css_request (JStr "styles.css") (JStr "css/main.css") (JBool false)].

(** A second request, silent, for another file. *)
Definition other_request : JSValue :=
  JObj [("name", JStr "print.css"); ("dirName", JStr "/theme");
        ("filePath", JStr "css/print.css"); ("silent", JBool true)].

Definition other_fragment : JSValue :=
  fragment (JStr "print.css") (JStr "/theme") (JStr "css/print.css") (JBool true).

Definition other_pending : Pending :=
  {| pending_action := JStr "append";
     pending_silent := JBool true;
     pending_request :=
       css_request (JStr "print.css") (JStr "css/print.css") (JBool true) |}.

Definition other_lookup : Event :=
  TriggerAsync "typhonjs:theme:css:get"
    [css_request (JStr "print.css") (JStr "css/print.css") (JBool true)].

(** Two resource bundles, as in the specification's example. *)
Definition sample_bundles : list JSValue :=
  [JObj [("append", JArr [JStr "a1"]); ("copy", JArr [JStr "c1"])];
   JObj [("append", JArr [JStr "a2"]); ("copy", JArr [JStr "c2"])]].

(** ** The earlier revision of the class *)

(** The sources keep an earlier revision of [ThemeEngine] beside the current
    one.  Its [createTheme] knows neither [map] nor [debug]: its parameter
    list is [{ files = 'styles.css', processors = [{ name: 'postcss-cssnext' }],
    silent = false } = {}], and the body has the two guards only. *)
Definition earlier_create_target (entry processors silent : JSValue) : JSValue :=
  JObj [("name", entry); ("to", entry); ("processors", processors); ("silent", silent)].

Definition earlier_default_processors : JSValue :=
  JArr [JObj [("name", JStr "postcss-cssnext")]].

Definition earlier_createTheme (options : JSValue) : M unit :=
  let options := default options (JObj []) in
  coercible options ;;
  let files := default (prop options "files") (JStr "styles.css") in
  let processors := default (prop options "processors") earlier_default_processors in
  let silent := default (prop options "silent") (JBool false) in
  throw_if (negb (isArray files) && negb (String.eqb (typeof files) "string"))
           files_error ;;
  throw_if (negb (isArray processors)) processors_error ;;
  if String.eqb (typeof files) "string"
  then emit (PostcssCreate (earlier_create_target files processors silent))
  else if isArray files
  then for_of (elements files)
         (fun entry => emit (PostcssCreate (earlier_create_target entry processors silent)))
  else ret tt.

Definition earlier_not_array_message : string :=
  "typhonjs-theme-engine cssAdd: 'themeCSS' is not an 'array'.".

(** The earlier [cssAdd] is the current one up to its [await]; after it, any
    reply that is not a list is reported, whatever [silent] says. *)
Definition earlier_cssAdd_resume (p : Pending) (themeCSS : JSValue) : M unit :=
  let action := pending_action p in
  if isArray themeCSS
  then
    for_of (elements themeCSS) (fun entry =>
      if isArray entry
      then for_of (elements entry) (fun entry2 => engine_add action entry2)
      else engine_add action entry)
  else emit (Trigger "log:error" [JStr earlier_not_array_message]).

Definition earlier_cssAdd (action data : JSValue) : M unit :=
  p <- cssAdd_start action data ;;
  earlier_cssAdd_resume p (triggerAsync "typhonjs:theme:css:get" [pending_request p]).

(** ** Vocabulary of the further statements *)

Definition is_create (e : Event) : bool :=
  match e with PostcssCreate _ => true | _ => false end.

Definition is_finalizeAll (e : Event) : bool :=
  match e with PostcssFinalizeAll _ => true | _ => false end.

Definition is_lookup (e : Event) : bool :=
  match e with TriggerAsync _ _ => true | _ => false end.

(** What the part after the [await] issues, reply by reply. *)
Definition content_events (p : Pending) (reply : JSValue) : list Event :=
  match reply with
  | JArr l => List.map (add_call (pending_action p)) (flatten_one_level l)
  | JUndefined => []
  | _ => if to_boolean (pending_silent p) then []
         else [Trigger "log:error" [JStr (not_array_message (typeof reply))]]
  end.

(** The same call with append and prepend exchanged. *)
Definition mirror (e : Event) : Event :=
  match e with
  | PostcssAppend x => PostcssPrepend x
  | PostcssPrepend x => PostcssAppend x
  | other => other
  end.

(** A suspended call with its action replaced. *)
Definition with_action (action : JSValue) (p : Pending) : Pending :=
  {| pending_action := action;
     pending_silent := pending_silent p;
     pending_request := pending_request p |}.

Definition mirror_promise (r : Exn + Pending) : Exn + Pending :=
  match r with
  | inl e => inl e
  | inr p => inr (with_action (JStr "prepend") p)
  end.

(** The entry's [cssAdd] call gets as far as its [await]. *)
Definition reaches_await (action entry : JSValue) : bool :=
  match outcome (cssAdd_start action entry) with
  | inr _ => true
  | inl _ => false
  end.

(** The error of the first entry whose [cssAdd] call fails before its
    [await]. *)
Fixpoint first_rejection (action : JSValue) (entries : list JSValue) : option Exn :=
  match entries with
  | [] => None
  | entry :: rest =>
      match outcome (cssAdd_start action entry) with
      | inl e => Some e
      | inr _ => first_rejection action rest
      end
  end.

(** The error of reading a field of [null] or [undefined]. *)
Definition read_error : Exn :=
  TypeError "Cannot read properties of undefined or null.".

Definition is_add (e : Event) : bool := is_append e || is_prepend e.

(** The bundles in front of the first entry that is [null] or [undefined]. *)
Fixpoint readable_prefix (bundles : list JSValue) : list JSValue :=
  match bundles with
  | [] => []
  | b :: rest => if is_bundle b then b :: readable_prefix rest else []
  end.

(** ** The monad and the loop *)

Lemma bind_ret {A B} (a : A) (f : A -> M B) : bind (ret a) f = f a.
Proof. unfold bind, ret. simpl. destruct (f a); reflexivity. Qed.

Lemma bind_throw_if {B} (c : bool) (e : Exn) (k : M B) :
  bind (throw_if c e) (fun _ => k) = if c then throw e else k.
Proof. destruct c; unfold throw_if; [reflexivity | apply bind_ret]. Qed.

Lemma for_of_total {A} (body : A -> M unit) (g : A -> list Event) :
  (forall x, body x = (g x, inr tt)) ->
  forall l, for_of l body = (flat_map g l, inr tt).
Proof.
  intros Hbody l. induction l as [|x l IH]; simpl.
  - reflexivity.
  - rewrite Hbody, IH. reflexivity.
Qed.

Lemma for_of_emit {A} (f : A -> Event) (l : list A) :
  for_of l (fun x => emit (f x)) = (map f l, inr tt).
Proof.
  induction l as [|x l IH]; simpl.
  - reflexivity.
  - rewrite IH. reflexivity.
Qed.

Lemma default_defined (v d : JSValue) : v <> JUndefined -> default v d = v.
Proof. destruct v; congruence || reflexivity. Qed.

Lemma coercible_ok (v : JSValue) :
  v <> JNull -> v <> JUndefined -> coercible v = ret tt.
Proof. destruct v; congruence || reflexivity. Qed.

(** ** createTheme *)

(** The whole behaviour of the body: two guards, then one [create] per
    target. *)
Lemma createTheme_body_spec (files map processors silent debug : JSValue) :
  createTheme_body files map processors silent debug =
  let pipeline :=
    match processors with
    | JUndefined | JNull => default_processors map debug
    | _ => processors
    end in
  if negb (isArray files) && negb (String.eqb (typeof files) "string")
  then ([], inl files_error)
  else if negb (isArray pipeline)
  then ([], inl processors_error)
  else (List.map (fun entry => PostcssCreate (create_target entry map pipeline silent))
                 (targets files), inr tt).
Proof.
  unfold createTheme_body. cbv zeta.
  rewrite bind_throw_if.
  destruct (negb (isArray files) && negb (String.eqb (typeof files) "string")) eqn:Hf;
    [reflexivity|].
  rewrite bind_throw_if.
  match goal with |- context [negb (isArray ?p)] => destruct (negb (isArray p)) end;
    [reflexivity|].
  destruct files; simpl in Hf; try discriminate; simpl.
  - reflexivity.
  - apply for_of_emit.
Qed.

Lemma default_processors_cases (map debug : JSValue) :
  default_processors map debug =
  if to_boolean debug
  then JArr [stage (cssnext (cssnext_options map))]
  else JArr [stage (cssnext (cssnext_options map)); stage combineDup;
             stage (cssnano cssnano_options)].
Proof. unfold default_processors. destruct (to_boolean debug); reflexivity. Qed.

Lemma createTheme_unfold (options : JSValue) :
  options <> JNull ->
  createTheme options =
  createTheme_body
    (default (prop options "files") (JStr "styles.css"))
    (default (prop options "map") (JBool true))
    (default (prop options "processors") JUndefined)
    (default (prop options "silent") (JBool false))
    (default (prop options "debug") (JBool false)).
Proof.
  intros Hnull. unfold createTheme. cbv zeta.
  destruct (is_undefined options) eqn:Hu.
  - destruct options; try discriminate. reflexivity.
  - rewrite default_defined by (intros ->; discriminate).
    rewrite coercible_ok, bind_ret by (trivial || intros ->; discriminate).
    reflexivity.
Qed.

Lemma files_guard_passes (files : JSValue) :
  isArray files || String.eqb (typeof files) "string" = true ->
  negb (isArray files) && negb (String.eqb (typeof files) "string") = false.
Proof.
  destruct (isArray files), (String.eqb (typeof files) "string");
    simpl; congruence.
Qed.

Lemma default_undefined (v : JSValue) : default v JUndefined = v.
Proof. destruct v; reflexivity. Qed.

(** With no processors supplied, unset or [null], and [files] past its
    guard, the call issues one [create] per target name, each carrying the
    default pipeline. *)
Lemma createTheme_defaulted_calls (options : JSValue) :
  let files := default (prop options "files") (JStr "styles.css") in
  let map := default (prop options "map") (JBool true) in
  let silent := default (prop options "silent") (JBool false) in
  let debug := default (prop options "debug") (JBool false) in
  options <> JNull ->
  prop options "processors" = JUndefined \/ prop options "processors" = JNull ->
  isArray files || String.eqb (typeof files) "string" = true ->
  createTheme options =
  (List.map (fun entry => PostcssCreate
               (create_target entry map (default_processors map debug) silent))
            (targets files), inr tt).
Proof.
  intros files map silent debug Hnull Hp Hf.
  rewrite createTheme_unfold by assumption. fold files map silent debug.
  rewrite createTheme_body_spec. cbv zeta. rewrite (files_guard_passes _ Hf).
  destruct Hp as [-> | ->]; cbn [default]; rewrite default_processors_cases;
    destruct (to_boolean debug); reflexivity.
Qed.

(** C1.  With [processors] unset, every [create] call issued by [createTheme]
    carries the default pipeline: the CSS-transform stage, the
    duplicate-selector stage and the minifier, in that order (3 stages), when
    [debug] is false; the CSS-transform stage alone (1 stage) when [debug] is
    true.  And the calls are issued: once the parameters are bound and
    [files] has passed its guard, the run is exactly one such [create] per
    target name, in order. *)
Theorem createTheme_default_pipeline (options : JSValue) :
  let files := default (prop options "files") (JStr "styles.css") in
  let map := default (prop options "map") (JBool true) in
  let silent := default (prop options "silent") (JBool false) in
  let debug := default (prop options "debug") (JBool false) in
  let full := JArr [stage (cssnext (cssnext_options map));
                    stage combineDup;
                    stage (cssnano cssnano_options)] in
  let lone := JArr [stage (cssnext (cssnext_options map))] in
  let creates pipeline :=
    List.map (fun entry => PostcssCreate (create_target entry map pipeline silent))
             (targets files) in
  prop options "processors" = JUndefined ->
  (to_boolean debug = false ->
   Forall (created_with full) (events (createTheme options)) /\
   (options <> JNull ->
    isArray files || String.eqb (typeof files) "string" = true ->
    createTheme options = (creates full, inr tt)))
  /\
  (to_boolean debug = true ->
   Forall (created_with lone) (events (createTheme options)) /\
   (options <> JNull ->
    isArray files || String.eqb (typeof files) "string" = true ->
    createTheme options = (creates lone, inr tt))).
Proof.
  intros files map silent debug full lone creates Hunset.
  assert (Hgen : forall pipeline,
             default_processors map debug = JArr pipeline ->
             Forall (created_with (JArr pipeline)) (events (createTheme options)) /\
             (options <> JNull ->
              isArray files || String.eqb (typeof files) "string" = true ->
              createTheme options = (creates (JArr pipeline), inr tt))).
  { intros pipeline Hp. split.
    - assert (Hcase : options = JNull \/ options <> JNull).
      { destruct options; (left; reflexivity) || (right; discriminate). }
      destruct Hcase as [-> | Hnull]; [constructor|].
      rewrite createTheme_unfold by assumption. fold files map silent debug.
      rewrite Hunset, createTheme_body_spec. cbv zeta. cbn [default]. rewrite Hp.
      destruct (negb _ && negb _); [constructor|]. cbn [isArray negb events fst].
      apply Forall_forall. intros e He. apply in_map_iff in He.
      destruct He as [entry [<- _]]. eexists. split; reflexivity.
    - intros Hnull Hf.
      rewrite (createTheme_defaulted_calls options Hnull (or_introl Hunset) Hf).
      fold files map silent debug. rewrite Hp. reflexivity. }
  split; intros Hd; apply Hgen; rewrite default_processors_cases, Hd; reflexivity.
Qed.

(** C6, amended.  A [files] value that is set and is neither a string nor a
    list makes [createTheme] fail with the [files] type error before any call
    is issued.  A list is accepted whatever it holds: it never raises that
    error, and once the processors have passed their own guard the run is
    one [create] per entry of the list, in order.  (An unset [files] stands
    for ['styles.css'].) *)
Theorem createTheme_rejects_files (options : JSValue) :
  let files := prop options "files" in
  let map := default (prop options "map") (JBool true) in
  let silent := default (prop options "silent") (JBool false) in
  let debug := default (prop options "debug") (JBool false) in
  let processors := prop options "processors" in
  let pipeline :=
    match processors with
    | JUndefined | JNull => default_processors map debug
    | _ => processors
    end in
  (files <> JUndefined ->
   isArray files = false ->
   typeof files <> "string" ->
   createTheme options = ([], inl files_error))
  /\
  (forall entries,
     files = JArr entries ->
     outcome (createTheme options) <> inl files_error /\
     (isArray pipeline = true ->
      createTheme options =
      (List.map (fun entry => PostcssCreate (create_target entry map pipeline silent))
                entries, inr tt))).
Proof.
  intros files map silent debug processors pipeline. split.
  - intros Hset Harr Hstr.
    assert (Hnull : options <> JNull) by (intros ->; apply Hset; reflexivity).
    rewrite createTheme_unfold by assumption.
    fold files. rewrite (default_defined files) by assumption.
    rewrite createTheme_body_spec. cbv zeta. rewrite Harr.
    destruct (String.eqb_spec (typeof files) "string") as [E|_]; [contradiction|].
    reflexivity.
  - intros entries Hfiles.
    assert (Hnull : options <> JNull).
    { intros ->. unfold files in Hfiles. discriminate. }
    rewrite createTheme_unfold by assumption.
    fold files map silent debug. rewrite Hfiles, default_undefined.
    rewrite createTheme_body_spec. cbv zeta.
    cbn [default isArray negb andb targets].
    fold processors. fold pipeline. unfold outcome.
    destruct (isArray pipeline); cbn [negb snd]; split;
      (discriminate || (intros _; reflexivity)).
Qed.

Lemma createTheme_body_null_processors (files map silent debug : JSValue) :
  createTheme_body files map JNull silent debug =
  createTheme_body files map JUndefined silent debug.
Proof. reflexivity. Qed.

Lemma createTheme_body_default_no_processors_error
  (files map silent debug : JSValue) :
  outcome (createTheme_body files map JUndefined silent debug) <> inl processors_error.
Proof.
  rewrite createTheme_body_spec. cbv zeta. rewrite default_processors_cases.
  destruct (negb _ && negb _); [discriminate|].
  destruct (to_boolean debug); discriminate.
Qed.

(** C10.  A call whose [processors] is [null] behaves exactly like the same
    call with [processors] unset, and the [processors] type error is never
    raised: the default pipeline is built in place of the [null], and once
    [files] has passed its guard the run is one [create] per target name,
    each carrying that pipeline. *)
Theorem createTheme_null_processors (with_null unset : JSValue) :
  let files := default (prop with_null "files") (JStr "styles.css") in
  let map := default (prop with_null "map") (JBool true) in
  let silent := default (prop with_null "silent") (JBool false) in
  let debug := default (prop with_null "debug") (JBool false) in
  unset <> JNull ->
  prop with_null "processors" = JNull ->
  prop unset "processors" = JUndefined ->
  Forall (fun k => prop with_null k = prop unset k) ["files"; "map"; "silent"; "debug"] ->
  createTheme with_null = createTheme unset /\
  outcome (createTheme with_null) <> inl processors_error /\
  (isArray files || String.eqb (typeof files) "string" = true ->
   createTheme with_null =
   (List.map (fun entry => PostcssCreate
                (create_target entry map (default_processors map debug) silent))
             (targets files), inr tt)).
Proof.
  intros files map silent debug Hunset Hnull Hundef Hagree.
  assert (Hw : with_null <> JNull) by (intros ->; discriminate).
  split; [|split].
  - rewrite !createTheme_unfold by assumption.
    rewrite Hnull, Hundef.
    repeat match goal with
           | H : Forall _ (_ :: _) |- _ => inversion H; subst; clear H
           end.
    repeat match goal with
           | E : prop with_null _ = prop unset _ |- _ => rewrite E; clear E
           end.
    cbn [default]. apply createTheme_body_null_processors.
  - rewrite createTheme_unfold by assumption. rewrite Hnull. cbn [default].
    rewrite createTheme_body_null_processors.
    apply createTheme_body_default_no_processors_error.
  - intros Hf. apply (createTheme_defaulted_calls with_null Hw (or_intror Hnull) Hf).
Qed.

(** ** cssAdd *)

Lemma engine_add_call (action x : JSValue) :
  engine_add action x = ([add_call action x], inr tt).
Proof. unfold engine_add, add_call. destruct (is_str action "append"); reflexivity. Qed.

(** The synchronous part of [cssAdd], case by case: the three guards, the
    rendering, then the structural call and the round-trip request. *)
Lemma cssAdd_start_spec (action data : JSValue) :
  let a := default action (JStr "append") in
  let d := default data (JObj []) in
  cssAdd_start action data =
  match d with
  | JUndefined | JNull => throw (TypeError "Cannot destructure 'undefined' or 'null'.")
  | _ =>
      if negb (String.eqb (typeof a) "string") then throw action_type_error
      else if negb (is_str a "append") && negb (is_str a "prepend")
      then throw action_value_error
      else
        match data_filePath d with
        | JStr path =>
            let request :=
              css_request (data_name d)
                (JStr (render_from (own_props (data_templateData d)) None path))
                (data_silent d) in
            ([add_call a (structural_fragment data);
              TriggerAsync "typhonjs:theme:css:get" [request]],
             inr {| pending_action := a;
                    pending_silent := data_silent d;
                    pending_request := request |})
        | _ => throw (TypeError "es6-template expects a string.")
        end
  end.
Proof.
  intros a d. unfold cssAdd_start, structural_fragment. cbv zeta. fold a d.
  assert (Hd : forall X : M Pending,
             match d with
             | JUndefined | JNull => True
             | _ => bind (coercible d) (fun _ => X) = X
             end).
  { intros X. destruct d; trivial; apply bind_ret. }
  destruct d eqn:Ed; try reflexivity; rewrite <- Ed in *;
    (etransitivity; [exact (Hd _)|]); clear Hd;
    rewrite !bind_throw_if;
    (destruct (negb (String.eqb (typeof a) "string")); [reflexivity|]);
    (destruct (negb (is_str a "append") && negb (is_str a "prepend")); [reflexivity|]);
    destruct (data_filePath d); try reflexivity;
    unfold es6Template; rewrite !bind_ret, engine_add_call; reflexivity.
Qed.

(** A call that reaches its [await] has issued the structural call and the
    request, and nothing else. *)
Lemma cssAdd_start_pending (action data : JSValue) (pre : list Event) (p : Pending) :
  cssAdd_start action data = (pre, inr p) ->
  pending_action p = default action (JStr "append") /\
  pending_silent p = data_silent (default data (JObj [])) /\
  pre = [add_call (default action (JStr "append")) (structural_fragment data);
         TriggerAsync "typhonjs:theme:css:get" [pending_request p]].
Proof.
  rewrite cssAdd_start_spec. cbv zeta. intros H.
  destruct (default data (JObj [])); try discriminate;
    (destruct (negb (String.eqb (typeof (default action (JStr "append"))) "string"));
       [discriminate|]);
    (destruct (negb (is_str (default action (JStr "append")) "append")
               && negb (is_str (default action (JStr "append")) "prepend"));
       [discriminate|]);
    match type of H with context [match ?fp with _ => _ end] => destruct fp end;
    try discriminate; injection H as <- <-; repeat split.
Qed.

(** A call that fails before its [await] has issued nothing. *)
Lemma cssAdd_start_rejected (action data : JSValue) (pre : list Event) (e : Exn) :
  cssAdd_start action data = (pre, inl e) -> pre = [].
Proof.
  rewrite cssAdd_start_spec. cbv zeta. intros H.
  destruct (default data (JObj []));
    try (injection H as <- _; reflexivity);
    (destruct (negb (String.eqb (typeof (default action (JStr "append"))) "string"));
       [injection H as <- _; reflexivity|]);
    (destruct (negb (is_str (default action (JStr "append")) "append")
               && negb (is_str (default action (JStr "append")) "prepend"));
       [injection H as <- _; reflexivity|]);
    match type of H with context [match ?fp with _ => _ end] => destruct fp end;
    try discriminate; injection H as <- _; reflexivity.
Qed.

Lemma add_call_is_engine_call (action x : JSValue) :
  is_engine_call (add_call action x) = true.
Proof. unfold add_call. destruct (is_str action "append"); reflexivity. Qed.

Lemma engine_calls_add_calls (action : JSValue) (l : list JSValue) :
  engine_calls (List.map (add_call action) l) = List.map (add_call action) l.
Proof.
  unfold engine_calls. induction l as [|x l IH]; simpl.
  - reflexivity.
  - rewrite add_call_is_engine_call, IH. reflexivity.
Qed.

Lemma flat_map_leaves (f : JSValue -> Event) (l : list JSValue) :
  flat_map (fun entry => List.map f (leaves entry)) l = List.map f (flatten_one_level l).
Proof.
  unfold flatten_one_level. induction l as [|x l IH]; simpl.
  - reflexivity.
  - rewrite IH, map_app. reflexivity.
Qed.

(** The loop of lines 123-137 issues one call per leaf of the reply. *)
Lemma cssAdd_resume_list (p : Pending) (l : list JSValue) :
  cssAdd_resume p (JArr l) =
  (List.map (add_call (pending_action p)) (flatten_one_level l), inr tt).
Proof.
  unfold cssAdd_resume. simpl.
  rewrite (for_of_total _ (fun entry => List.map (add_call (pending_action p)) (leaves entry))).
  - rewrite flat_map_leaves. reflexivity.
  - intros entry. destruct entry; simpl; try apply engine_add_call.
    induction items as [|x items IH]; simpl.
    + reflexivity.
    + rewrite engine_add_call, IH. reflexivity.
Qed.

Lemma cssAdd_run (action data : JSValue) (pre : list Event) (p : Pending) :
  cssAdd_start action data = (pre, inr p) ->
  cssAdd action data =
  (pre ++ events (cssAdd_resume p (triggerAsync "typhonjs:theme:css:get" [pending_request p])),
   outcome (cssAdd_resume p (triggerAsync "typhonjs:theme:css:get" [pending_request p]))).
Proof. intros H. unfold cssAdd. rewrite H. reflexivity. Qed.

(** C2.  When the content reply is a list, [cssAdd] issues, after its
    structural call and request, one engine call per leaf of the reply
    flattened by one level, in list order, each an append or a prepend as the
    action says; for the reply [[A,B],C] with [C] a leaf these are the calls
    for A, B and C. *)
Theorem cssAdd_flattens_reply (action data : JSValue) (pre : list Event)
  (p : Pending) (reply : list JSValue) :
  cssAdd_start action data = (pre, inr p) ->
  triggerAsync "typhonjs:theme:css:get" [pending_request p] = JArr reply ->
  cssAdd action data =
    (pre ++ List.map (add_call (default action (JStr "append"))) (flatten_one_level reply),
     inr tt) /\
  forall A B C, reply = [JArr [A; B]; C] -> isArray C = false ->
    events (cssAdd action data) =
    pre ++ [add_call (default action (JStr "append")) A;
            add_call (default action (JStr "append")) B;
            add_call (default action (JStr "append")) C].
Proof.
  intros Hstart Hreply.
  pose proof (cssAdd_start_pending _ _ _ _ Hstart) as [Hact _].
  assert (Hrun : cssAdd action data =
    (pre ++ List.map (add_call (default action (JStr "append"))) (flatten_one_level reply),
     inr tt)).
  { rewrite (cssAdd_run _ _ _ _ Hstart), Hreply, cssAdd_resume_list, Hact. reflexivity. }
  split; [exact Hrun|].
  intros A B C -> HC. rewrite Hrun. simpl.
  destruct C; try discriminate; reflexivity.
Qed.

(** C4, amended.  A call to [cssAdd] whose action is set and is neither
    ['append'] nor ['prepend'] fails before its [await] with a [TypeError]
    (the action is not a string, or the data cannot be destructured) or with
    the action [Error]; no engine call and no bus round-trip is issued.  (An
    unset action stands for ['append'].) *)
Theorem cssAdd_rejects_action (action data : JSValue) :
  action <> JUndefined ->
  is_str action "append" = false ->
  is_str action "prepend" = false ->
  exists e,
    cssAdd_start action data = ([], inl e) /\
    cssAdd action data = ([], inl e) /\
    (e = action_value_error \/ exists msg, e = TypeError msg) /\
    (data <> JNull ->
     e = if String.eqb (typeof action) "string" then action_value_error
         else action_type_error).
Proof.
  intros Hset Ha Hp.
  assert (Hstart : exists e, cssAdd_start action data = ([], inl e) /\
            (e = action_value_error \/ exists msg, e = TypeError msg) /\
            (data <> JNull ->
             e = if String.eqb (typeof action) "string" then action_value_error
                 else action_type_error)).
  { rewrite cssAdd_start_spec. cbv zeta.
    rewrite (default_defined action) by assumption. rewrite Ha, Hp.
    destruct data; simpl default;
      try (eexists; split; [reflexivity|]; split; [right; eexists; reflexivity|];
           intros Hn; congruence);
      destruct (String.eqb (typeof action) "string"); simpl;
      eexists; (split; [reflexivity|]);
      (split; [(left; reflexivity) || (right; eexists; reflexivity) | reflexivity]). }
  destruct Hstart as [e [Hs [Hkind Hexact]]].
  exists e. repeat split; try assumption.
  unfold cssAdd. rewrite Hs. reflexivity.
Qed.

Lemma cssAdd_resume_returns (p : Pending) (reply : JSValue) :
  outcome (cssAdd_resume p reply) = inr tt.
Proof.
  destruct reply; try (rewrite cssAdd_resume_list; reflexivity);
    unfold cssAdd_resume; simpl; try reflexivity;
    destruct (to_boolean (pending_silent p)); reflexivity.
Qed.

Lemma cssAdd_resume_not_list (p : Pending) (reply : JSValue) :
  reply <> JUndefined -> isArray reply = false ->
  cssAdd_resume p reply =
  ((if to_boolean (pending_silent p) then []
    else [Trigger "log:error" [JStr (not_array_message (typeof reply))]]),
   inr tt).
Proof.
  intros Hdef Harr. unfold cssAdd_resume. rewrite Harr.
  destruct reply; try congruence; try discriminate; simpl;
    destruct (to_boolean (pending_silent p)); reflexivity.
Qed.

(** C5.  When the content reply is [undefined], [cssAdd] completes without
    error and issues nothing after its structural call and request.  When the
    reply is defined and is not a list, it still completes without error and
    issues no further engine call; it emits the ['log:error'] diagnostic on
    the bus exactly when [silent] is false. *)
Theorem cssAdd_reply_not_list (action data : JSValue) (pre : list Event) (p : Pending) :
  cssAdd_start action data = (pre, inr p) ->
  let reply := triggerAsync "typhonjs:theme:css:get" [pending_request p] in
  let silent := data_silent (default data (JObj [])) in
  engine_calls pre =
    [add_call (default action (JStr "append")) (structural_fragment data)] /\
  (reply = JUndefined -> cssAdd action data = (pre, inr tt)) /\
  (reply <> JUndefined -> isArray reply = false ->
   outcome (cssAdd action data) = inr tt /\
   engine_calls (events (cssAdd action data)) = engine_calls pre /\
   existsb is_diagnostic (events (cssAdd action data)) = negb (to_boolean silent) /\
   events (cssAdd action data) =
     pre ++ (if to_boolean silent then []
             else [Trigger "log:error" [JStr (not_array_message (typeof reply))]])).
Proof.
  intros Hstart reply silent.
  pose proof (cssAdd_start_pending _ _ _ _ Hstart) as [Hact [Hsil Hpre]].
  assert (Hcalls : engine_calls pre =
            [add_call (default action (JStr "append")) (structural_fragment data)]).
  { rewrite Hpre. unfold engine_calls. simpl.
    rewrite add_call_is_engine_call. reflexivity. }
  split; [exact Hcalls|]. split.
  - intros Hr. rewrite (cssAdd_run _ _ _ _ Hstart). fold reply. rewrite Hr.
    simpl. rewrite app_nil_r. reflexivity.
  - intros Hdef Harr.
    assert (Hrun : cssAdd action data =
              (pre ++ (if to_boolean silent then []
                       else [Trigger "log:error" [JStr (not_array_message (typeof reply))]]),
               inr tt)).
    { rewrite (cssAdd_run _ _ _ _ Hstart). fold reply.
      rewrite (cssAdd_resume_not_list p reply Hdef Harr), Hsil. reflexivity. }
    rewrite Hrun. unfold events, outcome. simpl fst. simpl snd.
    repeat split.
    + unfold engine_calls. rewrite filter_app.
      destruct (to_boolean silent); simpl; rewrite app_nil_r; reflexivity.
    + rewrite existsb_app. rewrite Hpre at 1. unfold add_call.
      destruct (is_str (default action (JStr "append")) "append");
        destruct (to_boolean silent); reflexivity.
Qed.

(** ** The batch operations *)

(** C7.  In a batch of three fragment requests where the first and the third
    reach their [await] and the second fails before it, the engine has
    received the structural append calls of the first and of the third, in
    that order, by the time the promises are joined; the batch is rejected
    with the second entry's error; and the calls already issued stay in the
    record of the whole operation. *)
Theorem cssAppendAll_partial_failure (e1 e2 e3 : JSValue)
  (t1 t2 t3 : list Event) (p1 p3 : Pending) (err : Exn) :
  cssAdd_start (JStr "append") e1 = (t1, inr p1) ->
  cssAdd_start (JStr "append") e2 = (t2, inl err) ->
  cssAdd_start (JStr "append") e3 = (t3, inr p3) ->
  let batch := JArr [e1; e2; e3] in
  let started := events (cssAddAll_start (JStr "append") batch) in
  engine_calls started =
    [PostcssAppend (structural_fragment e1); PostcssAppend (structural_fragment e3)] /\
  outcome (cssAppendAll batch) = inl err /\
  exists later, events (cssAppendAll batch) = started ++ later.
Proof.
  intros H1 H2 H3 batch started.
  pose proof (cssAdd_start_pending _ _ _ _ H1) as [_ [_ Ht1]].
  pose proof (cssAdd_start_pending _ _ _ _ H3) as [_ [_ Ht3]].
  pose proof (cssAdd_start_rejected _ _ _ _ H2) as Ht2.
  assert (Hs : cssAddAll_start (JStr "append") batch =
                 (t1 ++ t3, inr [inr p1; inl err; inr p3])).
  { unfold cssAddAll_start, batch. simpl default. simpl iterate. rewrite bind_ret.
    simpl. rewrite H1, H2, H3, Ht2. simpl. rewrite app_nil_r. reflexivity. }
  assert (Hstarted : started = t1 ++ t3) by (unfold started; rewrite Hs; reflexivity).
  split; [|split].
  - rewrite Hstarted, Ht1, Ht3. reflexivity.
  - unfold cssAppendAll, cssAddAll. rewrite Hs. simpl.
    rewrite cssAdd_resume_returns. reflexivity.
  - unfold cssAppendAll, cssAddAll. rewrite Hstarted, Hs. simpl.
    eexists. reflexivity.
Qed.

(** ** Template rendering *)

Lemma append_snoc (k s : string) (c : ascii) :
  ((k ++ String c EmptyString) ++ s = k ++ String c s)%string.
Proof. induction k as [|a k IH]; simpl; [reflexivity | rewrite IH; reflexivity]. Qed.

Lemma append_empty_r (k : string) : (k ++ EmptyString = k)%string.
Proof. induction k as [|a k IH]; simpl; [reflexivity | rewrite IH; reflexivity]. Qed.

(** An opening that is never closed is copied as text. *)
Lemma render_from_unclosed (data : list (string * JSValue)) (s k : string) :
  has_close s = false ->
  render_from data (Some k) s = ("${" ++ k ++ s)%string.
Proof.
  revert k. induction s as [|c s IH]; intros k Hc; simpl.
  - rewrite append_empty_r. reflexivity.
  - simpl in Hc. apply orb_false_elim in Hc as [Hc1 Hc2].
    rewrite Hc1, (IH _ Hc2). simpl. rewrite append_snoc. reflexivity.
Qed.

(** A template with no placeholder renders to itself under any substitution
    variables. *)
Lemma render_from_plain (data : list (string * JSValue)) (s : string) :
  has_placeholder s = false -> render_from data None s = s.
Proof.
  induction s as [|c s IH]; intros H; [reflexivity|].
  destruct s as [|c' rest]; [reflexivity|].
  change (render_from data None (String c (String c' rest))) with
    (if Ascii.eqb c "$" && Ascii.eqb c' "{"
     then render_from data (Some EmptyString) rest
     else String c (render_from data None (String c' rest))).
  change (has_placeholder (String c (String c' rest))) with
    (if Ascii.eqb c "$" && Ascii.eqb c' "{" then has_close rest
     else has_placeholder (String c' rest)) in H.
  destruct (Ascii.eqb c "$" && Ascii.eqb c' "{") eqn:E.
  - apply andb_true_iff in E as [E1 E2].
    apply Ascii.eqb_eq in E1, E2. subst c c'.
    rewrite (render_from_unclosed data rest EmptyString H). reflexivity.
  - rewrite (IH H). reflexivity.
Qed.

(** C8.  For a file path with no template placeholder, the structural
    rendering (the template applied with no substitution variables) is the
    path itself, and that path is what [cssAdd] registers with the engine. *)
Theorem structural_rendering_of_plain_path (path : string) :
  has_placeholder path = false ->
  es6Template (JStr path) JUndefined = ret (JStr path) /\
  forall action data pre p,
    data_filePath (default data (JObj [])) = JStr path ->
    cssAdd_start action data = (pre, inr p) ->
    engine_calls pre =
      [add_call (default action (JStr "append"))
         (fragment (data_name (default data (JObj [])))
                   (data_dirName (default data (JObj [])))
                   (JStr path)
                   (data_silent (default data (JObj []))))].
Proof.
  intros Hplain. split.
  - unfold es6Template. simpl own_props. rewrite render_from_plain by assumption.
    reflexivity.
  - intros action data pre p Hpath Hstart.
    pose proof (cssAdd_start_pending _ _ _ _ Hstart) as [_ [_ Hpre]].
    rewrite Hpre. unfold engine_calls. simpl. rewrite add_call_is_engine_call.
    unfold structural_fragment. cbv zeta. rewrite Hpath.
    rewrite render_from_plain by assumption. reflexivity.
Qed.

(** ** finalizeTheme *)

Lemma guarded_loop (x : JSValue) (f : JSValue -> Event) :
  (if nonempty_array x
   then for_of (elements x) (fun entry => emit (f entry))
   else ret tt) = (List.map f (elements x), inr tt).
Proof.
  destruct x; try reflexivity.
  destruct items as [|y items]; [reflexivity|].
  change (nonempty_array (JArr (y :: items))) with true.
  apply for_of_emit.
Qed.

Lemma guarded_push (x : JSValue) (copyResources : list JSValue) :
  (if nonempty_array x
   then ret (copyResources ++ elements x)
   else @ret (list JSValue) copyResources) = ret (copyResources ++ elements x).
Proof.
  destruct x; simpl; rewrite ?app_nil_r; try reflexivity.
  destruct items as [|y items]; simpl; rewrite ?app_nil_r; reflexivity.
Qed.

Lemma get_bundle (bundle : JSValue) (k : string) :
  is_bundle bundle = true -> get bundle k = ret (prop bundle k).
Proof. destruct bundle; try discriminate; reflexivity. Qed.

Lemma add_resource_bundle (bundle : JSValue) (copyResources : list JSValue) :
  is_bundle bundle = true ->
  add_resource bundle copyResources =
  (bundle_calls bundle, inr (copyResources ++ bundle_list bundle "copy")).
Proof.
  intros Hb. unfold add_resource, bundle_calls, bundle_list.
  rewrite !(get_bundle _ _ Hb), !bind_ret, !guarded_loop, guarded_push.
  simpl. rewrite app_nil_r. reflexivity.
Qed.

Lemma add_resources_bundles (bundles copyResources : list JSValue) :
  Forall (fun b => is_bundle b = true) bundles ->
  add_resources bundles copyResources =
  (flat_map bundle_calls bundles,
   inr (copyResources ++ flat_map (fun b => bundle_list b "copy") bundles)).
Proof.
  intros Hall. revert copyResources.
  induction Hall as [|b bundles Hb _ IH]; intros copyResources; simpl.
  - rewrite app_nil_r. reflexivity.
  - rewrite (add_resource_bundle _ _ Hb). unfold bind. rewrite IH. simpl.
    rewrite app_assoc. reflexivity.
Qed.

Lemma finalizeTheme_unfold (options : JSValue) :
  options <> JNull ->
  finalizeTheme options =
  (TriggerAsync "typhonjs:theme:resources:get" []
     :: events (finalizeTheme_resume
                  (default (prop options "silent") (JBool false))
                  (triggerAsync "typhonjs:theme:resources:get" [])),
   outcome (finalizeTheme_resume
              (default (prop options "silent") (JBool false))
              (triggerAsync "typhonjs:theme:resources:get" []))).
Proof.
  intros Hnull. unfold finalizeTheme. cbv zeta.
  destruct (is_undefined options) eqn:Hu.
  - destruct options; try discriminate. reflexivity.
  - rewrite default_defined by (intros ->; discriminate).
    rewrite coercible_ok, bind_ret by (trivial || intros ->; discriminate).
    reflexivity.
Qed.

Lemma filter_append_calls (bundles : list JSValue) :
  filter is_append (flat_map bundle_calls bundles) =
  List.map PostcssAppend (flat_map (fun b => bundle_list b "append") bundles).
Proof.
  assert (Ha : forall l, filter is_append (List.map PostcssAppend l) = List.map PostcssAppend l)
    by (induction l; simpl; congruence).
  assert (Hp : forall l, filter is_append (List.map PostcssPrepend l) = [])
    by (induction l; simpl; congruence).
  induction bundles as [|b bundles IH]; simpl; [reflexivity|].
  unfold bundle_calls at 1.
  rewrite !filter_app, Ha, Hp, IH, map_app, app_nil_r. reflexivity.
Qed.

Lemma filter_prepend_calls (bundles : list JSValue) :
  filter is_prepend (flat_map bundle_calls bundles) =
  List.map PostcssPrepend (flat_map (fun b => bundle_list b "prepend") bundles).
Proof.
  assert (Ha : forall l, filter is_prepend (List.map PostcssAppend l) = [])
    by (induction l; simpl; congruence).
  assert (Hp : forall l, filter is_prepend (List.map PostcssPrepend l) = List.map PostcssPrepend l)
    by (induction l; simpl; congruence).
  induction bundles as [|b bundles IH]; simpl; [reflexivity|].
  unfold bundle_calls at 1.
  rewrite !filter_app, Ha, Hp, IH, map_app. reflexivity.
Qed.

(** C3.  When the resources reply is a list of bundles, [finalizeTheme]
    issues, bundle after bundle, an append call for each entry of the
    bundle's append list and a prepend call for each entry of its prepend
    list, then [finalizeAll]; the append calls taken alone follow bundle
    order then list order, and so do the prepend calls; the [copy] field of
    the result is the concatenation of the bundles' copy lists in the same
    order.  For [[{append:[a1],copy:[c1]},{append:[a2],copy:[c2]}]] the
    append calls are a1 then a2 and the copy list is [[c1,c2]]. *)
Theorem finalizeTheme_bundles (options : JSValue) (bundles : list JSValue) :
  options <> JNull ->
  triggerAsync "typhonjs:theme:resources:get" [] = JArr bundles ->
  Forall (fun b => is_bundle b = true) bundles ->
  let silent := default (prop options "silent") (JBool false) in
  let run := finalizeTheme options in
  run =
    (TriggerAsync "typhonjs:theme:resources:get" []
       :: flat_map bundle_calls bundles
       ++ [PostcssFinalizeAll (finalize_options silent)],
     inr (JObj [("css", finalizeAll (finalize_options silent));
                ("copy", JArr (flat_map (fun b => bundle_list b "copy") bundles))])) /\
  filter is_append (events run) =
    List.map PostcssAppend (flat_map (fun b => bundle_list b "append") bundles) /\
  filter is_prepend (events run) =
    List.map PostcssPrepend (flat_map (fun b => bundle_list b "prepend") bundles) /\
  forall a1 c1 a2 c2,
    bundles = [JObj [("append", JArr [a1]); ("copy", JArr [c1])];
               JObj [("append", JArr [a2]); ("copy", JArr [c2])]] ->
    filter is_append (events run) = [PostcssAppend a1; PostcssAppend a2] /\
    exists result, outcome run = inr result /\ prop result "copy" = JArr [c1; c2].
Proof.
  intros Hnull Hreply Hall silent run.
  assert (Hrun : run =
    (TriggerAsync "typhonjs:theme:resources:get" []
       :: flat_map bundle_calls bundles
       ++ [PostcssFinalizeAll (finalize_options silent)],
     inr (JObj [("css", finalizeAll (finalize_options silent));
                ("copy", JArr (flat_map (fun b => bundle_list b "copy") bundles))]))).
  { unfold run. rewrite finalizeTheme_unfold by assumption. fold silent.
    rewrite Hreply. unfold finalizeTheme_resume. simpl isArray. cbv iota.
    simpl elements. rewrite (add_resources_bundles _ _ Hall). reflexivity. }
  assert (Happend : filter is_append (events run) =
            List.map PostcssAppend (flat_map (fun b => bundle_list b "append") bundles)).
  { rewrite Hrun. unfold events. simpl. rewrite filter_app, filter_append_calls.
    simpl. apply app_nil_r. }
  assert (Hprepend : filter is_prepend (events run) =
            List.map PostcssPrepend (flat_map (fun b => bundle_list b "prepend") bundles)).
  { rewrite Hrun. unfold events. simpl. rewrite filter_app, filter_prepend_calls.
    simpl. apply app_nil_r. }
  repeat split; try assumption.
  - rewrite Happend. subst bundles. reflexivity.
  - rewrite Hrun. subst bundles. eexists. split; reflexivity.
Qed.

(** C9.  With an [undefined] resources reply [finalizeTheme] completes: it
    issues no append or prepend call, calls [finalizeAll] and returns an
    empty copy list.  With a [null] reply it throws a [TypeError] on reading
    the reply's [append] field, and [finalizeAll] is never called. *)
Theorem finalizeTheme_undefined_or_null (options : JSValue) :
  options <> JNull ->
  let silent := default (prop options "silent") (JBool false) in
  let reply := triggerAsync "typhonjs:theme:resources:get" [] in
  (reply = JUndefined ->
   finalizeTheme options =
     ([TriggerAsync "typhonjs:theme:resources:get" [];
       PostcssFinalizeAll (finalize_options silent)],
      inr (JObj [("css", finalizeAll (finalize_options silent));
                 ("copy", JArr [])]))) /\
  (reply = JNull ->
   events (finalizeTheme options) = [TriggerAsync "typhonjs:theme:resources:get" []] /\
   engine_calls (events (finalizeTheme options)) = [] /\
   exists msg, outcome (finalizeTheme options) = inl (TypeError msg)).
Proof.
  intros Hnull silent reply. split; intros Hr;
    rewrite !finalizeTheme_unfold by assumption; fold silent reply; rewrite Hr.
  - reflexivity.
  - repeat split. eexists. reflexivity.
Qed.

(** ** Further properties of createTheme *)

(** X1.  With a list of processors supplied, [createTheme] issues one
    [create] per target name, in order, each named and output after its
    entry, each carrying [map], [silent] and the supplied list unchanged; an
    empty list of files issues nothing and succeeds. *)
Theorem createTheme_supplied_processors (options : JSValue) (pipeline : list JSValue) :
  let files := default (prop options "files") (JStr "styles.css") in
  let map := default (prop options "map") (JBool true) in
  let silent := default (prop options "silent") (JBool false) in
  prop options "processors" = JArr pipeline ->
  isArray files || String.eqb (typeof files) "string" = true ->
  createTheme options =
  (List.map (fun entry => PostcssCreate (create_target entry map (JArr pipeline) silent))
            (targets files), inr tt).
Proof.
  intros files map silent Hp Hf.
  assert (Hnull : options <> JNull) by (intros ->; discriminate).
  rewrite createTheme_unfold by assumption.
  rewrite Hp, createTheme_body_spec. cbv zeta. fold files map silent.
  rewrite (files_guard_passes _ Hf). reflexivity.
Qed.

(** X2.  A [processors] value that is set, is not [null] and is not a list
    makes [createTheme] fail with the [processors] type error before any
    call is issued, once [files] has passed its own guard. *)
Theorem createTheme_rejects_processors (options : JSValue) :
  let files := default (prop options "files") (JStr "styles.css") in
  let processors := prop options "processors" in
  processors <> JUndefined ->
  processors <> JNull ->
  isArray processors = false ->
  isArray files || String.eqb (typeof files) "string" = true ->
  createTheme options = ([], inl processors_error).
Proof.
  intros files processors Hu Hn Ha Hf.
  assert (Hnull : options <> JNull) by (intros ->; apply Hu; reflexivity).
  rewrite createTheme_unfold by assumption.
  fold files processors. rewrite (default_defined processors) by assumption.
  rewrite createTheme_body_spec. cbv zeta.
  rewrite (files_guard_passes _ Hf).
  destruct processors; try congruence; try discriminate; reflexivity.
Qed.

Lemma createTheme_body_cases (files map processors silent debug : JSValue) :
  (exists e, createTheme_body files map processors silent debug = ([], inl e) /\
             (e = files_error \/ e = processors_error)) \/
  (exists pipeline,
     createTheme_body files map processors silent debug =
     (List.map (fun entry => PostcssCreate (create_target entry map pipeline silent))
               (targets files), inr tt)).
Proof.
  rewrite createTheme_body_spec. cbv zeta.
  destruct (negb (isArray files) && negb (String.eqb (typeof files) "string")).
  - left. eexists. split; [reflexivity | left; reflexivity].
  - match goal with |- context [negb (isArray ?p)] => destruct (negb (isArray p)) end.
    + left. eexists. split; [reflexivity | right; reflexivity].
    + right. eexists. reflexivity.
Qed.

(** X3.  Whatever it is given, [createTheme] issues [create] calls only, and
    a call that fails has issued nothing: its error is a [TypeError] raised
    by parameter binding or by one of the two guards, all of which come
    before the first [create]. *)
Theorem createTheme_all_or_nothing (options : JSValue) :
  Forall (fun ev => is_create ev = true) (events (createTheme options)) /\
  forall e, outcome (createTheme options) = inl e ->
            events (createTheme options) = [] /\ exists msg, e = TypeError msg.
Proof.
  destruct (is_undefined options) eqn:Hu; [destruct options; try discriminate|].
  - change (createTheme JUndefined) with (createTheme (JObj [])).
    split; [repeat constructor | intros e He; discriminate].
  - assert (Hcase : options = JNull \/ options <> JNull).
    { destruct options; (left; reflexivity) || (right; discriminate). }
    destruct Hcase as [-> | Hnull].
    + split; [constructor|]. intros e He. injection He as <-.
      split; [reflexivity | eexists; reflexivity].
    + rewrite createTheme_unfold by assumption.
      match goal with |- context [createTheme_body ?f ?m ?p ?s ?d] =>
        destruct (createTheme_body_cases f m p s d) as [[e [-> He]] | [pl ->]]
      end.
      * split; [constructor|]. intros e' He'. injection He' as <-.
        split; [reflexivity|].
        destruct He as [-> | ->]; eexists; reflexivity.
      * split; [|intros e He; discriminate].
        apply Forall_forall. intros ev Hev. apply in_map_iff in Hev.
        destruct Hev as [entry [<- _]]. reflexivity.
Qed.

(** ** Further properties of cssAdd *)

Lemma cssAdd_resume_spec (p : Pending) (reply : JSValue) :
  cssAdd_resume p reply = (content_events p reply, inr tt).
Proof.
  destruct reply; try (apply cssAdd_resume_list);
    try (apply cssAdd_resume_not_list; [discriminate | reflexivity]).
  reflexivity.
Qed.

(** A [cssAdd] call either fails before its [await], having issued nothing,
    or issues its structural call and request, resumes and returns. *)
Lemma cssAdd_cases (action data : JSValue) :
  (exists e, cssAdd_start action data = ([], inl e) /\ cssAdd action data = ([], inl e)) \/
  (exists p,
     let act := default action (JStr "append") in
     let pre := [add_call act (structural_fragment data);
                 TriggerAsync "typhonjs:theme:css:get" [pending_request p]] in
     cssAdd_start action data = (pre, inr p) /\
     pending_action p = act /\
     pending_silent p = data_silent (default data (JObj [])) /\
     cssAdd action data =
       (pre ++ content_events p (triggerAsync "typhonjs:theme:css:get" [pending_request p]),
        inr tt)).
Proof.
  destruct (cssAdd_start action data) as [pre [e | p]] eqn:Hs.
  - left. exists e. pose proof (cssAdd_start_rejected _ _ _ _ Hs) as Hpre.
    subst pre. split; [reflexivity|]. unfold cssAdd. rewrite Hs. reflexivity.
  - right. exists p. cbv zeta.
    destruct (cssAdd_start_pending _ _ _ _ Hs) as [Ha [Hsil Hpre]].
    rewrite <- Hpre. repeat split; try assumption.
    rewrite (cssAdd_run _ _ _ _ Hs), cssAdd_resume_spec. reflexivity.
Qed.

Lemma action_cases (act : JSValue) :
  is_str act "append" = true \/ is_str act "prepend" = true ->
  (is_str act "append" = true /\ forall x, add_call act x = PostcssAppend x) \/
  (is_str act "prepend" = true /\ is_str act "append" = false /\
   forall x, add_call act x = PostcssPrepend x).
Proof.
  intros H. unfold add_call.
  destruct (is_str act "append") eqn:Ea.
  - left. split; [reflexivity | intros; reflexivity].
  - right. destruct H as [H | H]; [discriminate|].
    repeat split; try assumption.
Qed.

(** X4.  A [cssAdd] call that fails has issued nothing at all: every error
    it can raise comes from parameter binding, the two action guards or the
    rendering of the path, ahead of the structural engine call. *)
Theorem cssAdd_failure_issues_nothing (action data : JSValue) (e : Exn) :
  outcome (cssAdd action data) = inl e ->
  cssAdd action data = ([], inl e) /\ cssAdd_start action data = ([], inl e).
Proof.
  intros H.
  destruct (cssAdd_cases action data) as [[e' [Hs Hr]] | [p [_ [_ [_ Hr]]]]];
    rewrite Hr in H; simpl in H; [|discriminate].
  injection H as <-. split; assumption.
Qed.

(** X5.  Every engine call of a [cssAdd] run is of the kind its action
    names: appends only under ['append'] (or an unset action), prepends only
    under ['prepend'].  It never creates or finalizes a target. *)
Theorem cssAdd_calls_match_action (action data : JSValue) :
  let act := default action (JStr "append") in
  (is_str act "append" = true ->
   Forall (fun ev => is_append ev = true) (engine_calls (events (cssAdd action data)))) /\
  (is_str act "prepend" = true ->
   Forall (fun ev => is_prepend ev = true) (engine_calls (events (cssAdd action data)))).
Proof.
  intros act.
  assert (Hgen : forall kind : Event -> bool,
             (forall x, kind (add_call act x) = true) ->
             Forall (fun ev => kind ev = true) (engine_calls (events (cssAdd action data)))).
  { intros kind Hkind.
    destruct (cssAdd_cases action data) as [[e [_ Hr]] | [p [_ [Ha [_ Hr]]]]];
      rewrite Hr; [constructor|].
    unfold events, engine_calls. simpl fst. cbn [app filter is_engine_call].
    fold act. rewrite add_call_is_engine_call.
    constructor; [apply Hkind|].
    destruct (triggerAsync "typhonjs:theme:css:get" [pending_request p]);
      simpl; try constructor;
      try (destruct (to_boolean (pending_silent p)); constructor).
    fold (engine_calls (List.map (add_call (pending_action p)) (flatten_one_level items))).
    rewrite engine_calls_add_calls, Ha. fold act.
    apply Forall_forall. intros ev Hev. apply in_map_iff in Hev.
    destruct Hev as [x [<- _]]. apply Hkind. }
  split; intros H; apply Hgen; intros x.
  - destruct (action_cases act (or_introl H)) as [[_ E] | [_ [E' _]]];
      [rewrite E; reflexivity | congruence].
  - destruct (action_cases act (or_intror H)) as [[E' _] | [_ [_ E]]];
      [|rewrite E; reflexivity].
    destruct act; try discriminate. simpl in H, E'.
    apply String.eqb_eq in H, E'. congruence.
Qed.

(** X6.  A [cssAdd] call that passes its guards issues the structural engine
    call first and the content request second; the request carries the same
    [name] and [silent] as the registered fragment; and nothing after it is
    a request: there is exactly one round-trip per call. *)
Theorem cssAdd_one_round_trip (action data : JSValue) (pre : list Event) (p : Pending) :
  cssAdd_start action data = (pre, inr p) ->
  exists rest,
    events (cssAdd action data) =
      add_call (default action (JStr "append")) (structural_fragment data)
        :: TriggerAsync "typhonjs:theme:css:get" [pending_request p] :: rest /\
    Forall (fun ev => is_lookup ev = false) rest /\
    prop (pending_request p) "name" = prop (structural_fragment data) "name" /\
    prop (pending_request p) "silent" = prop (structural_fragment data) "silent".
Proof.
  intros Hs.
  destruct (cssAdd_cases action data) as [[e [Hs' _]] | [p' [Hs' [Ha [_ Hr]]]]];
    rewrite Hs in Hs'; [discriminate|].
  injection Hs' as Hpre Hp. subst p'.
  exists (content_events p (triggerAsync "typhonjs:theme:css:get" [pending_request p])).
  split; [rewrite Hr; reflexivity|]. split.
  - destruct (triggerAsync "typhonjs:theme:css:get" [pending_request p]);
      unfold content_events;
      try (apply Forall_forall; intros ev Hev; apply in_map_iff in Hev;
           destruct Hev as [x [<- _]]; unfold add_call;
           destruct (is_str (pending_action p) "append"); reflexivity);
      try destruct (to_boolean (pending_silent p)); repeat constructor.
  - revert Hs. rewrite cssAdd_start_spec. cbv zeta. intros Hs.
    unfold structural_fragment. cbv zeta.
    destruct (default data (JObj [])); try discriminate;
      (destruct (negb (String.eqb (typeof (default action (JStr "append"))) "string"));
         [discriminate|]);
      (destruct (negb (is_str (default action (JStr "append")) "append")
                 && negb (is_str (default action (JStr "append")) "prepend"));
         [discriminate|]);
      match type of Hs with context [match ?fp with _ => _ end] => destruct fp end;
      try discriminate; injection Hs as _ <-; split; reflexivity.
Qed.

(** ** Append against prepend *)

Lemma cssAdd_start_mirror (entry : JSValue) :
  cssAdd_start (JStr "prepend") entry =
  (List.map mirror (events (cssAdd_start (JStr "append") entry)),
   mirror_promise (outcome (cssAdd_start (JStr "append") entry))).
Proof.
  rewrite !cssAdd_start_spec. cbv zeta.
  change (default (JStr "prepend") (JStr "append")) with (JStr "prepend").
  change (default (JStr "append") (JStr "append")) with (JStr "append").
  destruct (default entry (JObj [])); try reflexivity;
    destruct (data_filePath _); reflexivity.
Qed.

Lemma cssAdd_resume_mirror (p : Pending) (reply : JSValue) :
  pending_action p = JStr "append" ->
  cssAdd_resume (with_action (JStr "prepend") p) reply =
  (List.map mirror (events (cssAdd_resume p reply)), inr tt).
Proof.
  intros Ha. rewrite !cssAdd_resume_spec. unfold events. simpl fst. f_equal.
  destruct reply; simpl; try reflexivity;
    try (destruct (to_boolean (pending_silent p)); reflexivity).
  rewrite Ha, map_map. apply map_ext. intros x. reflexivity.
Qed.

Lemma cssAdd_start_append_action (entry : JSValue) (pre : list Event) (p : Pending) :
  cssAdd_start (JStr "append") entry = (pre, inr p) -> pending_action p = JStr "append".
Proof. intros H. destruct (cssAdd_start_pending _ _ _ _ H) as [Ha _]. exact Ha. Qed.

(** X8.  [cssPrepend] is [cssAppend] with every engine call turned from an
    append into a prepend: on the same request the two issue the same bus
    traffic, the same fragments in the same order, and end the same way. *)
Theorem cssPrepend_mirrors_cssAppend (data : JSValue) :
  cssPrepend data =
  (List.map mirror (events (cssAppend data)), outcome (cssAppend data)).
Proof.
  unfold cssPrepend, cssAppend, cssAdd.
  rewrite cssAdd_start_mirror.
  destruct (cssAdd_start (JStr "append") (default data (JObj []))) as [pre [e | p]] eqn:Hs.
  - reflexivity.
  - pose proof (cssAdd_start_append_action _ _ _ Hs) as Ha.
    unfold bind, events, outcome, mirror_promise. cbn [fst snd].
    change (pending_request (with_action (JStr "prepend") p)) with (pending_request p).
    rewrite (cssAdd_resume_mirror p _ Ha), (cssAdd_resume_spec p).
    unfold events. cbn [fst snd]. rewrite map_app. reflexivity.
Qed.

(** ** Further properties of the batch operations *)

Lemma cssAddAll_start_list (action : JSValue) (entries : list JSValue) :
  cssAddAll_start action (JArr entries) =
  (fst (start_each action entries), inr (snd (start_each action entries))).
Proof.
  unfold cssAddAll_start. simpl default. simpl iterate. rewrite bind_ret. reflexivity.
Qed.

Lemma cssAddAll_list (action : JSValue) (entries : list JSValue) :
  cssAddAll action (JArr entries) =
  (fst (start_each action entries)
     ++ fst (resume_each (snd (start_each action entries))),
   promise_all (snd (resume_each (snd (start_each action entries))))).
Proof. unfold cssAddAll. rewrite cssAddAll_start_list. reflexivity. Qed.

Lemma cssAddAll_entries (action data : JSValue) (entries : list JSValue) :
  iterate (default data (JArr [])) = ret entries ->
  cssAddAll action data =
  (fst (start_each action entries)
     ++ fst (resume_each (snd (start_each action entries))),
   promise_all (snd (resume_each (snd (start_each action entries))))).
Proof.
  intros H. unfold cssAddAll, cssAddAll_start. rewrite H, bind_ret. reflexivity.
Qed.

Lemma engine_calls_app (t1 t2 : list Event) :
  engine_calls (t1 ++ t2) = engine_calls t1 ++ engine_calls t2.
Proof. apply filter_app. Qed.

Lemma cssAdd_start_engine_calls (action entry : JSValue) :
  engine_calls (events (cssAdd_start action entry)) =
  if reaches_await action entry
  then [add_call (default action (JStr "append")) (structural_fragment entry)]
  else [].
Proof.
  unfold reaches_await.
  destruct (cssAdd_start action entry) as [pre [e | p]] eqn:Hs; unfold events, outcome; simpl.
  - rewrite (cssAdd_start_rejected _ _ _ _ Hs). reflexivity.
  - destruct (cssAdd_start_pending _ _ _ _ Hs) as [_ [_ ->]].
    unfold engine_calls. simpl. rewrite add_call_is_engine_call. reflexivity.
Qed.

(** X9.  When the promises of a batch are joined, the engine has received
    the structural call of every entry that got as far as its [await], in
    batch order, and nothing else; entries that failed contributed no call. *)
Theorem cssAddAll_calls_at_join (action : JSValue) (entries : list JSValue) :
  engine_calls (events (cssAddAll_start action (JArr entries))) =
  List.map (fun entry => add_call (default action (JStr "append")) (structural_fragment entry))
           (filter (reaches_await action) entries).
Proof.
  rewrite cssAddAll_start_list. unfold events. simpl fst.
  induction entries as [|entry rest IH]; [reflexivity|].
  simpl start_each. simpl fst. rewrite engine_calls_app, IH, cssAdd_start_engine_calls.
  simpl filter. destruct (reaches_await action entry); reflexivity.
Qed.

(** X10.  A batch is rejected exactly when one of its entries fails before
    its [await], and then with the error of the first such entry; otherwise
    it is fulfilled with one [undefined] per entry. *)
Theorem cssAddAll_outcome (action : JSValue) (entries : list JSValue) :
  outcome (cssAddAll action (JArr entries)) =
  match first_rejection action entries with
  | Some e => inl e
  | None => inr (JArr (repeat JUndefined (List.length entries)))
  end.
Proof.
  rewrite cssAddAll_list. unfold outcome at 1. simpl snd.
  induction entries as [|entry rest IH]; [reflexivity|].
  simpl start_each. simpl snd at 2. simpl first_rejection.
  destruct (outcome (cssAdd_start action entry)) as [e | p]; [reflexivity|].
  simpl resume_each. simpl snd. rewrite cssAdd_resume_returns.
  simpl promise_all. rewrite IH.
  destruct (first_rejection action rest); reflexivity.
Qed.

Lemma cssAdd_events_split (action entry : JSValue) :
  events (cssAdd action entry) =
  events (cssAdd_start action entry)
    ++ fst (resume_each [outcome (cssAdd_start action entry)]).
Proof.
  unfold cssAdd.
  destruct (cssAdd_start action entry) as [pre [e | p]]; unfold events, outcome; simpl.
  - rewrite app_nil_r. reflexivity.
  - rewrite app_nil_r. reflexivity.
Qed.

Lemma resume_each_cons (r : Exn + Pending) (rest : list (Exn + Pending)) :
  fst (resume_each (r :: rest)) = fst (resume_each [r]) ++ fst (resume_each rest).
Proof. destruct r; simpl; rewrite ?app_nil_r; reflexivity. Qed.

(** X11.  A batch issues the same calls as the single operations run one
    after the other on its entries, each the same number of times; only the
    order differs, the batch issuing every structural call and request
    before the first content call. *)
Theorem cssAddAll_permutes_single_calls (action : JSValue) (entries : list JSValue) :
  Permutation (events (cssAddAll action (JArr entries)))
              (flat_map (fun entry => events (cssAdd action entry)) entries) /\
  events (cssAddAll action (JArr entries)) =
    events (cssAddAll_start action (JArr entries))
      ++ fst (resume_each (snd (start_each action entries))).
Proof.
  rewrite cssAddAll_list, cssAddAll_start_list. unfold events at 1 3 4. simpl fst.
  split; [|reflexivity].
  induction entries as [|entry rest IH]; [constructor|].
  change (fst (start_each action (entry :: rest)))
    with (events (cssAdd_start action entry) ++ fst (start_each action rest)).
  change (snd (start_each action (entry :: rest)))
    with (outcome (cssAdd_start action entry) :: snd (start_each action rest)).
  cbn [flat_map].
  rewrite resume_each_cons, cssAdd_events_split, <- !app_assoc.
  apply Permutation_app_head.
  etransitivity; [apply Permutation_app_swap_app|].
  apply Permutation_app_head. exact IH.
Qed.

(** X12.  A batch argument that is set and is neither a list nor a string
    cannot be iterated: the batch is rejected with a [TypeError] and nothing
    is issued. *)
Theorem cssAddAll_not_iterable (action data : JSValue) :
  is_undefined data = false ->
  isArray data = false ->
  typeof data <> "string" ->
  cssAddAll action data = ([], inl (TypeError "data is not iterable.")).
Proof.
  intros Hu Ha Hs.
  destruct data; try discriminate; try reflexivity.
  exfalso. apply Hs. reflexivity.
Qed.

Lemma start_each_mirror (entries : list JSValue) :
  start_each (JStr "prepend") entries =
  (List.map mirror (fst (start_each (JStr "append") entries)),
   List.map mirror_promise (snd (start_each (JStr "append") entries))).
Proof.
  induction entries as [|entry rest IH]; [reflexivity|].
  simpl start_each. rewrite IH, cssAdd_start_mirror.
  unfold events, outcome. simpl. rewrite map_app. reflexivity.
Qed.

Lemma resume_each_mirror (entries : list JSValue) :
  resume_each (List.map mirror_promise (snd (start_each (JStr "append") entries))) =
  (List.map mirror (fst (resume_each (snd (start_each (JStr "append") entries)))),
   snd (resume_each (snd (start_each (JStr "append") entries)))).
Proof.
  induction entries as [|entry rest IH]; [reflexivity|].
  simpl start_each. simpl snd at 1 3 5.
  destruct (cssAdd_start (JStr "append") entry) as [pre [e | p]] eqn:Hs;
    unfold outcome; simpl snd at 1 3 5; simpl List.map; simpl resume_each;
    rewrite IH; simpl.
  - reflexivity.
  - pose proof (cssAdd_start_append_action _ _ _ Hs) as Ha.
    change (pending_request (with_action (JStr "prepend") p)) with (pending_request p).
    rewrite (cssAdd_resume_mirror p _ Ha), (cssAdd_resume_spec p).
    unfold events, outcome. cbn [fst snd]. rewrite map_app. reflexivity.
Qed.

(** X13.  [cssPrependAll] is [cssAppendAll] with every engine call turned
    from an append into a prepend, on every argument; the two are fulfilled
    or rejected alike. *)
Theorem cssPrependAll_mirrors_cssAppendAll (data : JSValue) :
  cssPrependAll data =
  (List.map mirror (events (cssAppendAll data)), outcome (cssAppendAll data)).
Proof.
  assert (Hrun : forall entries,
    iterate (default data (JArr [])) = ret entries ->
    cssPrependAll data =
    (List.map mirror (events (cssAppendAll data)), outcome (cssAppendAll data))).
  { intros entries Hit.
    unfold cssPrependAll, cssAppendAll.
    rewrite !(cssAddAll_entries _ _ _ Hit).
    unfold events, outcome. cbn [fst snd].
    rewrite start_each_mirror. cbn [fst snd].
    rewrite resume_each_mirror. cbn [fst snd].
    rewrite map_app. reflexivity. }
  destruct data; try reflexivity; eapply Hrun; reflexivity.
Qed.

(** ** Further properties of finalizeTheme *)

Lemma bind_ret_r {A} (m : M A) : bind m (fun x => ret x) = m.
Proof. destruct m as [t [e | a]]; simpl; rewrite ?app_nil_r; reflexivity. Qed.

Lemma add_resource_unreadable (b : JSValue) (copyResources : list JSValue) :
  is_bundle b = false -> add_resource b copyResources = ([], inl read_error).
Proof. destruct b; try discriminate; reflexivity. Qed.

(** The loop over the bundles stops at the first entry it cannot read. *)
Lemma add_resources_spec (bundles copyResources : list JSValue) :
  add_resources bundles copyResources =
  (flat_map bundle_calls (readable_prefix bundles),
   if forallb is_bundle bundles
   then inr (copyResources ++ flat_map (fun b => bundle_list b "copy") bundles)
   else inl read_error).
Proof.
  revert copyResources. induction bundles as [|b rest IH]; intros copyResources.
  - simpl. rewrite app_nil_r. reflexivity.
  - cbn [add_resources readable_prefix forallb flat_map].
    destruct (is_bundle b) eqn:Hb.
    + rewrite (add_resource_bundle _ _ Hb). unfold bind. rewrite IH.
      cbn [fst snd andb]. destruct (forallb is_bundle rest);
        rewrite ?app_assoc; reflexivity.
    + rewrite (add_resource_unreadable _ _ Hb). reflexivity.
Qed.

Lemma bundle_calls_are_adds (bundles : list JSValue) :
  Forall (fun ev => is_add ev = true) (flat_map bundle_calls bundles).
Proof.
  apply Forall_forall. intros ev Hev. apply in_flat_map in Hev.
  destruct Hev as [b [_ Hev]]. unfold bundle_calls in Hev.
  apply in_app_or in Hev. destruct Hev as [Hev | Hev];
    apply in_map_iff in Hev; destruct Hev as [x [<- _]]; reflexivity.
Qed.

Lemma finalizeTheme_resume_list (silent : JSValue) (bundles : list JSValue) :
  finalizeTheme_resume silent (JArr bundles) =
  if forallb is_bundle bundles
  then (flat_map bundle_calls bundles ++ [PostcssFinalizeAll (finalize_options silent)],
        inr (JObj [("css", finalizeAll (finalize_options silent));
                   ("copy", JArr (flat_map (fun b => bundle_list b "copy") bundles))]))
  else (flat_map bundle_calls (readable_prefix bundles), inl read_error).
Proof.
  unfold finalizeTheme_resume. cbn [isArray elements].
  rewrite add_resources_spec.
  destruct (forallb is_bundle bundles) eqn:Hall; [|reflexivity].
  assert (Hp : readable_prefix bundles = bundles).
  { clear -Hall. induction bundles as [|b rest IH]; [reflexivity|].
    simpl in Hall. apply andb_true_iff in Hall as [Hb Hrest].
    simpl. rewrite Hb, (IH Hrest). reflexivity. }
  rewrite Hp. reflexivity.
Qed.

Lemma finalizeTheme_resume_single (silent b : JSValue) :
  isArray b = false -> typeof b = "object" ->
  finalizeTheme_resume silent b = finalizeTheme_resume silent (JArr [b]).
Proof.
  intros Ha Ht. unfold finalizeTheme_resume at 1 2. rewrite Ha, Ht.
  cbn [isArray elements add_resources String.eqb].
  change (String.eqb "object" "object") with true. cbv iota.
  rewrite (bind_ret_r (add_resource b [])). reflexivity.
Qed.

(** The part after the first [await] either reads every bundle, calls
    [finalizeAll] last and returns, or stops at a value it cannot read. *)
Lemma finalizeTheme_resume_cases (silent reply : JSValue) :
  exists calls,
    Forall (fun ev => is_add ev = true) calls /\
    ((exists copy,
        finalizeTheme_resume silent reply =
        (calls ++ [PostcssFinalizeAll (finalize_options silent)],
         inr (JObj [("css", finalizeAll (finalize_options silent));
                    ("copy", JArr copy)]))) \/
     finalizeTheme_resume silent reply = (calls, inl read_error)).
Proof.
  assert (Hlist : forall bundles,
    exists calls,
      Forall (fun ev => is_add ev = true) calls /\
      ((exists copy,
          finalizeTheme_resume silent (JArr bundles) =
          (calls ++ [PostcssFinalizeAll (finalize_options silent)],
           inr (JObj [("css", finalizeAll (finalize_options silent));
                      ("copy", JArr copy)]))) \/
       finalizeTheme_resume silent (JArr bundles) = (calls, inl read_error))).
  { intros bundles. rewrite finalizeTheme_resume_list.
    destruct (forallb is_bundle bundles).
    - eexists. split; [apply bundle_calls_are_adds|]. left. eexists. reflexivity.
    - eexists. split; [apply bundle_calls_are_adds|]. right. reflexivity. }
  destruct reply;
    try (exists []; split; [constructor|]; left; exists []; reflexivity).
  - exists []. split; [constructor|]. right. reflexivity.
  - apply Hlist.
  - rewrite finalizeTheme_resume_single by reflexivity. apply Hlist.
Qed.

(** X15.  A resources reply that is not of type object (a number, a string,
    a boolean, a function, or nothing at all) is ignored: [finalizeTheme]
    calls [finalizeAll] straight away and returns an empty copy list. *)
Theorem finalizeTheme_ignores_non_object_reply (options : JSValue) :
  options <> JNull ->
  typeof (triggerAsync "typhonjs:theme:resources:get" []) <> "object" ->
  let silent := default (prop options "silent") (JBool false) in
  finalizeTheme options =
  ([TriggerAsync "typhonjs:theme:resources:get" [];
    PostcssFinalizeAll (finalize_options silent)],
   inr (JObj [("css", finalizeAll (finalize_options silent)); ("copy", JArr [])])).
Proof.
  intros Hnull Ht silent. rewrite finalizeTheme_unfold by assumption. fold silent.
  destruct (triggerAsync "typhonjs:theme:resources:get" []);
    try reflexivity; exfalso; apply Ht; reflexivity.
Qed.

(** X16.  When a list of bundles holds an entry that is [null] or
    [undefined], [finalizeTheme] has already issued the calls of the bundles
    in front of it when it throws on reading that entry; the bundles behind
    it are never looked at and [finalizeAll] is not called. *)
Theorem finalizeTheme_stops_at_unreadable_bundle (options : JSValue)
  (bundles : list JSValue) :
  options <> JNull ->
  triggerAsync "typhonjs:theme:resources:get" [] = JArr bundles ->
  forallb is_bundle bundles = false ->
  finalizeTheme options =
  (TriggerAsync "typhonjs:theme:resources:get" []
     :: flat_map bundle_calls (readable_prefix bundles),
   inl read_error).
Proof.
  intros Hnull Hreply Hbad. rewrite finalizeTheme_unfold by assumption.
  rewrite Hreply, finalizeTheme_resume_list, Hbad. reflexivity.
Qed.

Lemma adds_are_not_finalizeAll (calls : list Event) :
  Forall (fun ev => is_add ev = true) calls -> existsb is_finalizeAll calls = false.
Proof.
  induction 1 as [|ev calls Hev _ IH]; [reflexivity|].
  simpl. rewrite IH. destruct ev; try discriminate; reflexivity.
Qed.

(** X17.  [finalizeTheme] calls [finalizeAll] exactly when it succeeds, once
    and as its last call, after the request and nothing but appends and
    prepends; the [css] field of its result is what [finalizeAll] produced.
    When it fails, it is on reading a reply it cannot read, and [finalizeAll]
    has not been called. *)
Theorem finalizeTheme_finalizeAll_iff_success (options : JSValue) :
  options <> JNull ->
  let silent := default (prop options "silent") (JBool false) in
  (forall result, outcome (finalizeTheme options) = inr result ->
     prop result "css" = finalizeAll (finalize_options silent) /\
     exists calls,
       Forall (fun ev => is_add ev = true) calls /\
       events (finalizeTheme options) =
         TriggerAsync "typhonjs:theme:resources:get" []
           :: calls ++ [PostcssFinalizeAll (finalize_options silent)]) /\
  (forall e, outcome (finalizeTheme options) = inl e ->
     e = read_error /\ existsb is_finalizeAll (events (finalizeTheme options)) = false).
Proof.
  intros Hnull silent. rewrite finalizeTheme_unfold by assumption. fold silent.
  destruct (finalizeTheme_resume_cases silent
              (triggerAsync "typhonjs:theme:resources:get" []))
    as [calls [Hadds [[copy Hr] | Hr]]]; rewrite Hr; unfold events, outcome;
    cbn [fst snd]; split; intros x Hx; try discriminate.
  - injection Hx as <-. split; [reflexivity|]. exists calls. split; [assumption | reflexivity].
  - injection Hx as <-. split; [reflexivity|].
    cbn [existsb is_finalizeAll orb]. apply adds_are_not_finalizeAll. assumption.
Qed.

(** ** The earlier revision *)

Lemma earlier_createTheme_spec (options : JSValue) :
  options <> JNull ->
  let files := default (prop options "files") (JStr "styles.css") in
  let processors := default (prop options "processors") earlier_default_processors in
  let silent := default (prop options "silent") (JBool false) in
  earlier_createTheme options =
  if negb (isArray files) && negb (String.eqb (typeof files) "string")
  then ([], inl files_error)
  else if negb (isArray processors)
  then ([], inl processors_error)
  else (List.map (fun entry => PostcssCreate (earlier_create_target entry processors silent))
                 (targets files), inr tt).
Proof.
  intros Hnull files processors silent.
  assert (Hbody : earlier_createTheme options =
    bind (throw_if (negb (isArray files) && negb (String.eqb (typeof files) "string"))
                   files_error)
      (fun _ => bind (throw_if (negb (isArray processors)) processors_error)
      (fun _ =>
         if String.eqb (typeof files) "string"
         then emit (PostcssCreate (earlier_create_target files processors silent))
         else if isArray files
         then for_of (elements files)
                (fun entry => emit (PostcssCreate (earlier_create_target entry processors silent)))
         else ret tt))).
  { unfold earlier_createTheme. cbv zeta.
    destruct (is_undefined options) eqn:Hu.
    - destruct options; try discriminate. reflexivity.
    - rewrite default_defined by (intros ->; discriminate).
      rewrite coercible_ok, bind_ret by (trivial || intros ->; discriminate).
      reflexivity. }
  rewrite Hbody, bind_throw_if.
  destruct (negb (isArray files) && negb (String.eqb (typeof files) "string")) eqn:Hf;
    [reflexivity|].
  rewrite bind_throw_if.
  destruct (negb (isArray processors)); [reflexivity|].
  destruct files; simpl in Hf; try discriminate; simpl.
  - reflexivity.
  - apply for_of_emit.
Qed.

(** X18.  In the earlier revision a [null] [processors] is not defaulted: it
    reaches the list guard and the call fails with the [processors] type
    error before any [create], once [files] has passed its own guard. *)
Theorem earlier_createTheme_rejects_null_processors (options : JSValue) :
  let files := default (prop options "files") (JStr "styles.css") in
  prop options "processors" = JNull ->
  isArray files || String.eqb (typeof files) "string" = true ->
  earlier_createTheme options = ([], inl processors_error).
Proof.
  intros files Hp Hf.
  assert (Hnull : options <> JNull) by (intros ->; discriminate).
  rewrite earlier_createTheme_spec by assumption. cbv zeta. fold files.
  rewrite (files_guard_passes _ Hf), Hp. reflexivity.
Qed.

(** X19.  In the earlier revision an unset [processors] stands for the single
    named stage [postcss-cssnext]: every target is created with that
    one-entry list, one [create] per target name, in order. *)
Theorem earlier_createTheme_default_pipeline (options : JSValue) :
  let files := default (prop options "files") (JStr "styles.css") in
  let silent := default (prop options "silent") (JBool false) in
  options <> JNull ->
  prop options "processors" = JUndefined ->
  isArray files || String.eqb (typeof files) "string" = true ->
  earlier_createTheme options =
  (List.map (fun entry => PostcssCreate
               (earlier_create_target entry
                  (JArr [JObj [("name", JStr "postcss-cssnext")]]) silent))
            (targets files), inr tt).
Proof.
  intros files silent Hnull Hp Hf.
  rewrite earlier_createTheme_spec by assumption. cbv zeta. fold files silent.
  rewrite (files_guard_passes _ Hf), Hp. reflexivity.
Qed.

Lemma earlier_cssAdd_resume_list (p : Pending) (l : list JSValue) :
  earlier_cssAdd_resume p (JArr l) = cssAdd_resume p (JArr l).
Proof. reflexivity. Qed.

Lemma earlier_cssAdd_resume_not_list (p : Pending) (reply : JSValue) :
  isArray reply = false ->
  earlier_cssAdd_resume p reply =
  ([Trigger "log:error" [JStr earlier_not_array_message]], inr tt).
Proof. intros Ha. unfold earlier_cssAdd_resume. rewrite Ha. reflexivity. Qed.

(** X20.  The two revisions of [cssAdd] drive the engine alike: on every
    input they issue the same engine calls in the same order and end the
    same way.  They differ in diagnostics only. *)
Theorem earlier_cssAdd_same_engine_calls (action data : JSValue) :
  engine_calls (events (earlier_cssAdd action data)) =
    engine_calls (events (cssAdd action data)) /\
  outcome (earlier_cssAdd action data) = outcome (cssAdd action data).
Proof.
  unfold earlier_cssAdd, cssAdd.
  destruct (cssAdd_start action data) as [pre [e | p]]; [split; reflexivity|].
  unfold bind, events, outcome. cbn [fst snd].
  rewrite (cssAdd_resume_spec p).
  destruct (triggerAsync "typhonjs:theme:css:get" [pending_request p]) eqn:Hr;
    try (rewrite earlier_cssAdd_resume_not_list by reflexivity;
         cbn [fst snd content_events]; rewrite !engine_calls_app;
         try destruct (to_boolean (pending_silent p)); split; reflexivity).
  rewrite earlier_cssAdd_resume_list, cssAdd_resume_spec. split; reflexivity.
Qed.

(** X21.  The earlier [cssAdd] reports every reply that is not a list, an
    [undefined] reply and a silent request included: after the structural
    call and the request it emits one ['log:error'] message and returns. *)
Theorem earlier_cssAdd_always_reports (action data : JSValue) (pre : list Event)
  (p : Pending) :
  cssAdd_start action data = (pre, inr p) ->
  isArray (triggerAsync "typhonjs:theme:css:get" [pending_request p]) = false ->
  earlier_cssAdd action data =
  (pre ++ [Trigger "log:error" [JStr earlier_not_array_message]], inr tt).
Proof.
  intros Hs Ha. unfold earlier_cssAdd. rewrite Hs. unfold bind.
  rewrite (earlier_cssAdd_resume_not_list p _ Ha). reflexivity.
Qed.

(** ** A list of files against single files *)

(** X22.  Creating a theme for a list of file names is creating it for each
    name in turn: with the other parameters fixed, the calls issued for the
    list are those issued for its entries one after the other. *)
Theorem createTheme_list_is_sequence
  (names : list JSValue) (map processors silent debug : JSValue) :
  Forall (fun name => typeof name = "string") names ->
  events (createTheme_body (JArr names) map processors silent debug) =
  flat_map (fun name => events (createTheme_body name map processors silent debug)) names.
Proof.
  intros Hnames. rewrite createTheme_body_spec. cbv zeta. cbn [isArray negb andb targets].
  match goal with |- context [negb (isArray ?p)] =>
    set (pipeline := p); destruct (negb (isArray pipeline)) eqn:Hp end.
  - induction Hnames as [|name rest Hname _ IH]; [reflexivity|].
    cbn [flat_map]. rewrite <- IH, createTheme_body_spec. cbv zeta.
    fold pipeline. rewrite Hp, Hname.
    destruct (negb (isArray name) && negb (String.eqb "string" "string")); reflexivity.
  - unfold events. cbn [fst].
    induction Hnames as [|name rest Hname _ IH]; [reflexivity|].
    cbn [flat_map List.map]. rewrite IH, createTheme_body_spec. cbv zeta.
    fold pipeline. rewrite Hp, Hname.
    change (String.eqb "string" "string") with true.
    rewrite andb_false_r. destruct name; try discriminate. reflexivity.
Qed.

End Orchestrator.

(** ** One bundle or a list of one *)

(** X14.  A resources reply that is a single bundle object is treated as the
    list holding that one bundle: two buses that answer the one and the
    other lead [finalizeTheme] to the same calls and the same result. *)
Theorem finalizeTheme_single_bundle_as_list
  (bus1 bus2 : string -> list JSValue -> JSValue) (finalizeAll : JSValue -> JSValue)
  (options bundle : JSValue) :
  bus1 "typhonjs:theme:resources:get" [] = bundle ->
  bus2 "typhonjs:theme:resources:get" [] = JArr [bundle] ->
  isArray bundle = false ->
  typeof bundle = "object" ->
  finalizeTheme bus1 finalizeAll options = finalizeTheme bus2 finalizeAll options.
Proof.
  intros H1 H2 Ha Ht. unfold finalizeTheme. cbv zeta. rewrite H1, H2.
  rewrite (finalizeTheme_resume_single finalizeAll _ bundle Ha Ht). reflexivity.
Qed.

(** ** Concrete runs *)

Lemma createTheme_default_pipeline_witness :
  createTheme (JObj [("files", JArr [JStr "a.css"; JStr "b.css"])]) =
    ([PostcssCreate
        (create_target (JStr "a.css") (JBool true)
           (JArr [stage (cssnext (JObj [("sourceMap", JStr "inline")]));
                  stage combineDup;
                  stage (cssnano cssnano_options)])
           (JBool false));
      PostcssCreate
        (create_target (JStr "b.css") (JBool true)
           (JArr [stage (cssnext (JObj [("sourceMap", JStr "inline")]));
                  stage combineDup;
                  stage (cssnano cssnano_options)])
           (JBool false))],
     inr tt)
  /\
  createTheme (JObj [("map", JBool false); ("debug", JBool true)]) =
    ([PostcssCreate
        (create_target (JStr "styles.css") (JBool false)
           (JArr [stage (cssnext (JObj []))]) (JBool false))],
     inr tt).
Proof.
  split.
  - apply (proj1 (createTheme_default_pipeline
                    (JObj [("files", JArr [JStr "a.css"; JStr "b.css"])]) eq_refl)
                 eq_refl);
      (reflexivity || discriminate).
  - apply (proj2 (createTheme_default_pipeline
                    (JObj [("map", JBool false); ("debug", JBool true)]) eq_refl)
                 eq_refl);
      (reflexivity || discriminate).
Defined.

Lemma cssAdd_flattens_reply_witness :
  cssAdd string_binding
    (reply_with (JArr [JArr [JStr "A"; JStr "B"]; JStr "C"]))
    (JStr "prepend") sample_request =
  ([PostcssPrepend sample_fragment; sample_lookup;
    PostcssPrepend (JStr "A"); PostcssPrepend (JStr "B"); PostcssPrepend (JStr "C")],
   inr tt).
Proof.
  apply (cssAdd_flattens_reply string_binding
           (reply_with (JArr [JArr [JStr "A"; JStr "B"]; JStr "C"]))
           (JStr "prepend") sample_request
           [PostcssPrepend sample_fragment; sample_lookup]
           (sample_pending "prepend")
           [JArr [JStr "A"; JStr "B"]; JStr "C"]);
    reflexivity.
Defined.

Lemma finalizeTheme_bundles_witness :
  JUndefined <> JNull /\
  finalizeTheme (reply_with (JArr sample_bundles)) no_css JUndefined =
  ([TriggerAsync "typhonjs:theme:resources:get" [];
    PostcssAppend (JStr "a1"); PostcssAppend (JStr "a2");
    PostcssFinalizeAll (JObj [("silent", JBool false)])],
   inr (JObj [("css", JArr []); ("copy", JArr [JStr "c1"; JStr "c2"])])).
Proof.
  split; [discriminate|].
  apply (finalizeTheme_bundles (reply_with (JArr sample_bundles)) no_css
           JUndefined sample_bundles).
  - discriminate.
  - reflexivity.
  - repeat constructor.
Defined.

Lemma cssAdd_rejects_action_witness :
  exists e,
    cssAdd_start string_binding (JStr "replace") sample_request = ([], inl e) /\
    cssAdd string_binding (reply_with JUndefined) (JStr "replace") sample_request
      = ([], inl e) /\
    (e = action_value_error \/ exists msg, e = TypeError msg) /\
    (sample_request <> JNull -> e = action_value_error).
Proof.
  apply (cssAdd_rejects_action string_binding (reply_with JUndefined)
           (JStr "replace") sample_request).
  - discriminate.
  - reflexivity.
  - reflexivity.
Defined.

Lemma cssAdd_reply_not_list_witness :
  cssAdd string_binding (reply_with JUndefined) (JStr "append") sample_request
    = ([PostcssAppend sample_fragment; sample_lookup], inr tt) /\
  events (cssAdd string_binding (reply_with (JNum 4)) (JStr "append") sample_request)
    = [PostcssAppend sample_fragment; sample_lookup;
       Trigger "log:error" [JStr (not_array_message "number")]] /\
  events (cssAdd string_binding (reply_with (JNum 4)) (JStr "append") other_request)
    = [PostcssAppend other_fragment; other_lookup].
Proof.
  split; [|split].
  - apply (cssAdd_reply_not_list string_binding (reply_with JUndefined)
             (JStr "append") sample_request
             [PostcssAppend sample_fragment; sample_lookup] (sample_pending "append"));
      reflexivity.
  - apply (cssAdd_reply_not_list string_binding (reply_with (JNum 4))
             (JStr "append") sample_request
             [PostcssAppend sample_fragment; sample_lookup] (sample_pending "append"));
      (reflexivity || discriminate).
  - apply (cssAdd_reply_not_list string_binding (reply_with (JNum 4))
             (JStr "append") other_request
             [PostcssAppend other_fragment; other_lookup] other_pending);
      (reflexivity || discriminate).
Defined.

Lemma createTheme_rejects_files_witness :
  createTheme (JObj [("files", JNum 3)]) = ([], inl files_error) /\
  createTheme (JObj [("files", JObj [])]) = ([], inl files_error) /\
  createTheme (JObj [("files", JNull)]) = ([], inl files_error) /\
  createTheme (JObj [("files", JBool true)]) = ([], inl files_error) /\
  createTheme (JObj [("files", JArr [JBool true; JStr "a.css"])]) =
    ([PostcssCreate
        (create_target (JBool true) (JBool true)
           (default_processors (JBool true) (JBool false)) (JBool false));
      PostcssCreate
        (create_target (JStr "a.css") (JBool true)
           (default_processors (JBool true) (JBool false)) (JBool false))],
     inr tt).
Proof.
  split; [|split; [|split; [|split]]].
  - apply (proj1 (createTheme_rejects_files (JObj [("files", JNum 3)])));
      (reflexivity || discriminate).
  - apply (proj1 (createTheme_rejects_files (JObj [("files", JObj [])])));
      (reflexivity || discriminate).
  - apply (proj1 (createTheme_rejects_files (JObj [("files", JNull)])));
      (reflexivity || discriminate).
  - apply (proj1 (createTheme_rejects_files (JObj [("files", JBool true)])));
      (reflexivity || discriminate).
  - apply (proj2 (proj2 (createTheme_rejects_files
                           (JObj [("files", JArr [JBool true; JStr "a.css"])]))
                        [JBool true; JStr "a.css"] eq_refl));
      reflexivity.
Defined.

Lemma cssAppendAll_partial_failure_witness :
  engine_calls
    (events (cssAddAll_start string_binding (JStr "append")
               (JArr [sample_request; JNull; other_request])))
    = [PostcssAppend sample_fragment; PostcssAppend other_fragment] /\
  outcome (cssAppendAll string_binding (reply_with JUndefined)
             (JArr [sample_request; JNull; other_request]))
    = inl (TypeError "Cannot destructure 'undefined' or 'null'.").
Proof.
  destruct (cssAppendAll_partial_failure string_binding (reply_with JUndefined)
              sample_request JNull other_request
              [PostcssAppend sample_fragment; sample_lookup] []
              [PostcssAppend other_fragment; other_lookup]
              (sample_pending "append") other_pending
              (TypeError "Cannot destructure 'undefined' or 'null'.")
              eq_refl eq_refl eq_refl) as [Hcalls [Hout _]].
  split; [exact Hcalls | exact Hout].
Defined.

Lemma structural_rendering_of_plain_path_witness :
  has_placeholder "css/main.css" = false /\
  es6Template string_binding (JStr "css/main.css") JUndefined = ret (JStr "css/main.css").
Proof.
  split; [reflexivity|].
  apply (structural_rendering_of_plain_path string_binding "css/main.css").
  reflexivity.
Defined.

Lemma finalizeTheme_undefined_or_null_witness :
  finalizeTheme (reply_with JUndefined) no_css JUndefined =
    ([TriggerAsync "typhonjs:theme:resources:get" [];
      PostcssFinalizeAll (JObj [("silent", JBool false)])],
     inr (JObj [("css", JArr []); ("copy", JArr [])])) /\
  events (finalizeTheme (reply_with JNull) no_css JUndefined) =
    [TriggerAsync "typhonjs:theme:resources:get" []].
Proof.
  split.
  - apply (finalizeTheme_undefined_or_null (reply_with JUndefined) no_css JUndefined);
      (reflexivity || discriminate).
  - apply (finalizeTheme_undefined_or_null (reply_with JNull) no_css JUndefined);
      (reflexivity || discriminate).
Defined.

Lemma createTheme_null_processors_witness :
  createTheme (JObj [("processors", JNull); ("debug", JBool true)]) =
  createTheme (JObj [("debug", JBool true)]) /\
  outcome (createTheme (JObj [("processors", JNull); ("debug", JBool true)]))
    <> inl processors_error /\
  createTheme (JObj [("processors", JNull); ("debug", JBool true)]) =
    ([PostcssCreate
        (create_target (JStr "styles.css") (JBool true)
           (JArr [stage (cssnext (JObj [("sourceMap", JStr "inline")]))])
           (JBool false))],
     inr tt).
Proof.
  destruct (createTheme_null_processors
              (JObj [("processors", JNull); ("debug", JBool true)])
              (JObj [("debug", JBool true)]))
    as [Hsame [Herr Hrun]].
  - discriminate.
  - reflexivity.
  - reflexivity.
  - repeat constructor.
  - split; [exact Hsame|]. split; [exact Herr|]. apply Hrun. reflexivity.
Defined.

(** ** Where the specification and the code part *)

(** C4 as stated fails when the action is [undefined]: [undefined] is equal
    to neither ['append'] nor ['prepend'], yet the default initialiser of the
    parameter turns it into ['append'] and the call goes through. *)
Lemma cssAdd_unset_action_appends :
  JUndefined <> JStr "append" /\
  JUndefined <> JStr "prepend" /\
  cssAdd string_binding (reply_with JUndefined) JUndefined sample_request =
    ([PostcssAppend sample_fragment; sample_lookup], inr tt).
Proof. repeat split; discriminate. Qed.

(** C6 as stated fails on a list that holds something else than strings: the
    guard on line 55 looks at the list, not at its entries, and a target is
    created for each entry. *)
Lemma createTheme_accepts_number_list :
  string_or_string_list (JArr [JNum 42]) = false /\
  createTheme (JObj [("files", JArr [JNum 42])]) =
    ([PostcssCreate
        (create_target (JNum 42) (JBool true)
           (default_processors (JBool true) (JBool false)) (JBool false))],
     inr tt).
Proof. split; reflexivity. Qed.

(** ** Concrete runs of the further properties *)

Lemma createTheme_supplied_processors_witness :
  createTheme (JObj [("files", JArr [JStr "a.css"; JStr "b.css"]);
                     ("processors", JArr [stage combineDup]);
                     ("silent", JBool true)]) =
  ([PostcssCreate (create_target (JStr "a.css") (JBool true) (JArr [stage combineDup]) (JBool true));
    PostcssCreate (create_target (JStr "b.css") (JBool true) (JArr [stage combineDup]) (JBool true))],
   inr tt) /\
  createTheme (JObj [("files", JArr []); ("processors", JArr [])]) = ([], inr tt).
Proof.
  split.
  - apply (createTheme_supplied_processors
             (JObj [("files", JArr [JStr "a.css"; JStr "b.css"]);
                    ("processors", JArr [stage combineDup]);
                    ("silent", JBool true)])
             [stage combineDup]); reflexivity.
  - apply (createTheme_supplied_processors
             (JObj [("files", JArr []); ("processors", JArr [])]) []); reflexivity.
Defined.

Lemma createTheme_rejects_processors_witness :
  createTheme (JObj [("processors", JStr "cssnano")]) = ([], inl processors_error) /\
  createTheme (JObj [("files", JArr [JStr "a.css"]); ("processors", JObj [])])
    = ([], inl processors_error).
Proof.
  split.
  - apply (createTheme_rejects_processors (JObj [("processors", JStr "cssnano")]));
      (reflexivity || discriminate).
  - apply (createTheme_rejects_processors
             (JObj [("files", JArr [JStr "a.css"]); ("processors", JObj [])]));
      (reflexivity || discriminate).
Defined.

Lemma createTheme_all_or_nothing_witness :
  events (createTheme (JObj [("processors", JNum 1)])) = [] /\
  exists msg, processors_error = TypeError msg.
Proof.
  apply (proj2 (createTheme_all_or_nothing (JObj [("processors", JNum 1)]))
           processors_error).
  reflexivity.
Defined.

Lemma cssAdd_failure_issues_nothing_witness :
  cssAdd string_binding (reply_with (JArr [JStr "A"])) (JNum 7) sample_request
    = ([], inl action_type_error) /\
  cssAdd_start string_binding (JNum 7) sample_request = ([], inl action_type_error).
Proof.
  apply (cssAdd_failure_issues_nothing string_binding (reply_with (JArr [JStr "A"]))
           (JNum 7) sample_request).
  reflexivity.
Defined.

Lemma cssAdd_calls_match_action_witness :
  Forall (fun ev => is_append ev = true)
    (engine_calls (events (cssAdd string_binding
       (reply_with (JArr [JArr [JStr "A"; JStr "B"]; JStr "C"])) JUndefined sample_request)))
  /\
  Forall (fun ev => is_prepend ev = true)
    (engine_calls (events (cssAdd string_binding
       (reply_with (JArr [JArr [JStr "A"; JStr "B"]; JStr "C"])) (JStr "prepend") sample_request))).
Proof.
  split.
  - apply (proj1 (cssAdd_calls_match_action string_binding
             (reply_with (JArr [JArr [JStr "A"; JStr "B"]; JStr "C"]))
             JUndefined sample_request)).
    reflexivity.
  - apply (proj2 (cssAdd_calls_match_action string_binding
             (reply_with (JArr [JArr [JStr "A"; JStr "B"]; JStr "C"]))
             (JStr "prepend") sample_request)).
    reflexivity.
Defined.

Lemma cssAdd_one_round_trip_witness :
  exists rest,
    events (cssAdd string_binding (reply_with (JArr [JStr "A"])) (JStr "append") other_request)
      = PostcssAppend other_fragment :: other_lookup :: rest /\
    Forall (fun ev => is_lookup ev = false) rest /\
    prop (pending_request other_pending) "name" = JStr "print.css" /\
    prop (pending_request other_pending) "silent" = JBool true.
Proof.
  apply (cssAdd_one_round_trip string_binding (reply_with (JArr [JStr "A"]))
           (JStr "append") other_request
           [PostcssAppend other_fragment; other_lookup] other_pending).
  reflexivity.
Defined.

Lemma cssAddAll_not_iterable_witness :
  cssAddAll string_binding (reply_with JUndefined) (JStr "append") (JNum 3)
    = ([], inl (TypeError "data is not iterable.")) /\
  cssAddAll string_binding (reply_with JUndefined) (JStr "prepend") sample_request
    = ([], inl (TypeError "data is not iterable.")).
Proof.
  split.
  - apply (cssAddAll_not_iterable string_binding (reply_with JUndefined)
             (JStr "append") (JNum 3)); (reflexivity || discriminate).
  - apply (cssAddAll_not_iterable string_binding (reply_with JUndefined)
             (JStr "prepend") sample_request); (reflexivity || discriminate).
Defined.

Lemma finalizeTheme_single_bundle_as_list_witness :
  finalizeTheme (reply_with (JObj [("append", JArr [JStr "a1"]); ("copy", JArr [JStr "c1"])]))
    no_css JUndefined =
  finalizeTheme (reply_with (JArr [JObj [("append", JArr [JStr "a1"]); ("copy", JArr [JStr "c1"])]]))
    no_css JUndefined.
Proof.
  apply (finalizeTheme_single_bundle_as_list
           (reply_with (JObj [("append", JArr [JStr "a1"]); ("copy", JArr [JStr "c1"])]))
           (reply_with (JArr [JObj [("append", JArr [JStr "a1"]); ("copy", JArr [JStr "c1"])]]))
           no_css JUndefined
           (JObj [("append", JArr [JStr "a1"]); ("copy", JArr [JStr "c1"])]));
    reflexivity.
Defined.

Lemma finalizeTheme_ignores_non_object_reply_witness :
  finalizeTheme (reply_with (JStr "theme")) no_css (JObj [("silent", JBool true)]) =
  ([TriggerAsync "typhonjs:theme:resources:get" [];
    PostcssFinalizeAll (JObj [("silent", JBool true)])],
   inr (JObj [("css", JArr []); ("copy", JArr [])])).
Proof.
  apply (finalizeTheme_ignores_non_object_reply (reply_with (JStr "theme")) no_css
           (JObj [("silent", JBool true)])); discriminate.
Defined.

Lemma finalizeTheme_stops_at_unreadable_bundle_witness :
  finalizeTheme
    (reply_with (JArr [JObj [("prepend", JArr [JStr "p1"])]; JNull;
                       JObj [("append", JArr [JStr "a2"])]]))
    no_css JUndefined =
  ([TriggerAsync "typhonjs:theme:resources:get" []; PostcssPrepend (JStr "p1")],
   inl read_error).
Proof.
  apply (finalizeTheme_stops_at_unreadable_bundle
           (reply_with (JArr [JObj [("prepend", JArr [JStr "p1"])]; JNull;
                              JObj [("append", JArr [JStr "a2"])]]))
           no_css JUndefined
           [JObj [("prepend", JArr [JStr "p1"])]; JNull;
            JObj [("append", JArr [JStr "a2"])]]);
    (reflexivity || discriminate).
Defined.

Lemma finalizeTheme_finalizeAll_iff_success_witness :
  (prop (JObj [("css", JArr []); ("copy", JArr [JStr "c1"; JStr "c2"])]) "css" = no_css
     (finalize_options (JBool false)) /\
   exists calls,
     Forall (fun ev => is_add ev = true) calls /\
     events (finalizeTheme (reply_with (JArr sample_bundles)) no_css JUndefined) =
       TriggerAsync "typhonjs:theme:resources:get" []
         :: calls ++ [PostcssFinalizeAll (finalize_options (JBool false))]) /\
  (read_error = read_error /\
   existsb is_finalizeAll
     (events (finalizeTheme (reply_with JNull) no_css JUndefined)) = false).
Proof.
  split.
  - apply (proj1 (finalizeTheme_finalizeAll_iff_success
             (reply_with (JArr sample_bundles)) no_css JUndefined
             ltac:(discriminate))
             (JObj [("css", JArr []); ("copy", JArr [JStr "c1"; JStr "c2"])])).
    reflexivity.
  - apply (proj2 (finalizeTheme_finalizeAll_iff_success
             (reply_with JNull) no_css JUndefined ltac:(discriminate))
             read_error).
    reflexivity.
Defined.

Lemma earlier_createTheme_rejects_null_processors_witness :
  earlier_createTheme (JObj [("processors", JNull)]) = ([], inl processors_error).
Proof.
  apply (earlier_createTheme_rejects_null_processors (JObj [("processors", JNull)]));
    reflexivity.
Defined.

Lemma earlier_createTheme_default_pipeline_witness :
  earlier_createTheme (JObj [("files", JArr [JStr "a.css"; JStr "b.css"])]) =
  ([PostcssCreate (earlier_create_target (JStr "a.css")
                     (JArr [JObj [("name", JStr "postcss-cssnext")]]) (JBool false));
    PostcssCreate (earlier_create_target (JStr "b.css")
                     (JArr [JObj [("name", JStr "postcss-cssnext")]]) (JBool false))],
   inr tt).
Proof.
  apply (earlier_createTheme_default_pipeline
           (JObj [("files", JArr [JStr "a.css"; JStr "b.css"])]));
    (reflexivity || discriminate).
Defined.

Lemma earlier_cssAdd_always_reports_witness :
  earlier_cssAdd string_binding (reply_with JUndefined) (JStr "append") other_request =
  ([PostcssAppend other_fragment; other_lookup;
    Trigger "log:error" [JStr earlier_not_array_message]], inr tt).
Proof.
  apply (earlier_cssAdd_always_reports string_binding (reply_with JUndefined)
           (JStr "append") other_request
           [PostcssAppend other_fragment; other_lookup] other_pending);
    reflexivity.
Defined.

Lemma createTheme_list_is_sequence_witness :
  events (createTheme_body (JArr [JStr "a.css"; JStr "b.css"])
            (JBool true) JUndefined (JBool false) (JBool true)) =
  events (createTheme_body (JStr "a.css") (JBool true) JUndefined (JBool false) (JBool true))
    ++ events (createTheme_body (JStr "b.css") (JBool true) JUndefined (JBool false) (JBool true))
    ++ [].
Proof.
  apply (createTheme_list_is_sequence [JStr "a.css"; JStr "b.css"]
           (JBool true) JUndefined (JBool false) (JBool true)).
  repeat constructor.
Defined.
